(** * Time-based volume control and crank-speed governor

    A shallow embedding of the two Arduino sketches of the repository:
    the plain time-based volume control (TBC-volume-control.ino) and the
    Music Construction Machine controller, which adds the crank-speed
    governor and the night switch-off.

    Globals of the sketches are grouped in records by the function that
    owns them.  An AVR [int] is a 16-bit two's complement integer and a
    [long] a 32-bit one; both are carried as [Z] with the wrap-around
    written at each arithmetic operation.  Output on the serial line and
    the speaker is left out, and of the LCD only the text of the screens
    in [Display] is kept; pin writes and blocking delays are kept as a
    trace of events. *)

From Stdlib Require Import ZArith List Bool Lia.
From Stdlib Require String DecimalString.
Import ListNotations.
Open Scope Z_scope.

(** ** Machine integers *)

Module Int.

Definition wrap16 (z : Z) : Z := (z + 32768) mod 65536 - 32768.
Definition wrap32 (z : Z) : Z := (z + 2147483648) mod 4294967296 - 2147483648.

(** [x++] and [x--] on an [int]. *)
Definition incr (x : Z) : Z := wrap16 (x + 1).
Definition decr (x : Z) : Z := wrap16 (x - 1).

(** Conversion of an [int] to [uint8_t], as done at a call of a function
    taking a byte. *)
Definition to_byte (z : Z) : Z := z mod 256.

Definition in16 (z : Z) : Prop := -32768 <= z <= 32767.

(** Arduino's [map]: long arithmetic, division truncating toward zero. *)
Definition map (x in_min in_max out_min out_max : Z) : Z :=
  wrap32 (wrap32 (wrap32 (x - in_min) * wrap32 (out_max - out_min))
            ÷ wrap32 (in_max - in_min) + out_min).

End Int.

(** ** The two sketches *)

Inductive program := TBC | MCMC.

Definition DAY : Z := 1.
Definition EVENING : Z := 2.
Definition NIGHT : Z := 3.

(** ** Schedule matching: [set_volume_to_current_time] *)

(** Trigger times and volumes, read from EEPROM in [setup]. *)
Record config := mkConfig {
  day_hour : Z; day_minute : Z; day_volume : Z;
  evening_hour : Z; evening_minute : Z; evening_volume : Z;
  night_hour : Z; night_minute : Z; night_volume : Z
}.

(** The globals [volume] and [match_time] together with the locals
    [scan_hour] and [scan_minute] of the scan. *)
Record scan := mkScan {
  scan_hour : Z; scan_minute : Z;
  volume : Z; match_time : Z
}.

Definition set_match (v m : Z) (s : scan) : scan :=
  mkScan (scan_hour s) (scan_minute s) v m.

Definition at_time (h m : Z) (s : scan) : bool :=
  (scan_hour s =? h) && (scan_minute s =? m).

(** The three tests of the loop body, in source order. *)
Definition test_day (c : config) (s : scan) : scan :=
  if at_time (day_hour c) (day_minute c) s
  then set_match (day_volume c) DAY s else s.

Definition test_evening (c : config) (s : scan) : scan :=
  if at_time (evening_hour c) (evening_minute c) s
  then set_match (evening_volume c) EVENING s else s.

(** The night test assigns [volume] in the plain sketch only. *)
Definition test_night (p : program) (c : config) (s : scan) : scan :=
  if at_time (night_hour c) (night_minute c) s
  then match p with
       | TBC => set_match (night_volume c) NIGHT s
       | MCMC => set_match (volume s) NIGHT s
       end
  else s.

(** One minute back, wrapping at 00:00 to 23:59. *)
Definition step_back (s : scan) : scan :=
  if scan_minute s >? 0
  then mkScan (scan_hour s) (Int.decr (scan_minute s)) (volume s) (match_time s)
  else if scan_hour s >? 0
       then mkScan (Int.decr (scan_hour s)) 59 (volume s) (match_time s)
       else mkScan 23 59 (volume s) (match_time s).

Definition tests (p : program) (c : config) (s : scan) : scan :=
  test_night p c (test_evening c (test_day c s)).

Definition scan_body (p : program) (c : config) (s : scan) : scan :=
  step_back (tests p c s).

(** [while (!match_time) { ... }]; [fuel] bounds the number of times the
    body runs. *)
Fixpoint scan_loop (p : program) (c : config) (fuel : nat) (s : scan)
  : option scan :=
  if match_time s =? 0 then
    match fuel with
    | O => None
    | S f => scan_loop p c f (scan_body p c s)
    end
  else Some s.

(** [now_hour], [now_minute]: the reading of the clock; [vol]: the global
    [volume] on entry.  The result carries [volume] and [match_time]. *)
Definition set_volume_to_current_time (p : program) (c : config) (fuel : nat)
    (now_hour now_minute vol : Z) : option scan :=
  scan_loop p c fuel (mkScan now_hour now_minute vol 0).

Definition valid_time (h m : Z) : Prop := 0 <= h <= 23 /\ 0 <= m <= 59.

(** A full day of minutes. *)
Definition day_steps : nat := 1440.

Definition example_config (dv ev nv : Z) : config :=
  mkConfig 8 0 dv 18 0 ev 23 0 nv.

(** Evening and Night share the trigger time 18:00. *)
Definition tie_config : config := mkConfig 8 0 80 18 0 50 18 0 10.

(** Vocabulary for the statements: which entries the scan position of
    [s] coincides with, and the position [k] minutes before that of [s]. *)
Definition hit_day (c : config) (s : scan) : bool :=
  at_time (day_hour c) (day_minute c) s.
Definition hit_evening (c : config) (s : scan) : bool :=
  at_time (evening_hour c) (evening_minute c) s.
Definition hit_night (c : config) (s : scan) : bool :=
  at_time (night_hour c) (night_minute c) s.
Definition hit (c : config) (s : scan) : bool :=
  hit_day c s || hit_evening c s || hit_night c s.

Definition scanned (k : nat) (s : scan) : scan := Nat.iter k step_back s.

Definition minute_of_day (s : scan) : Z := 60 * scan_hour s + scan_minute s.
Definition valid_scan (s : scan) : Prop :=
  valid_time (scan_hour s) (scan_minute s).


(** ** Servo smoothing: [smooth_servo] *)

(** The globals of [smooth_servo] and the state of the [Servo] object:
    whether it is attached and the last value given to [write]. *)
Record servo := mkServo {
  p_desired_servo_pos : Z; desired_servo_pos : Z; servo_pos : Z;
  detach_timeout : Z;
  attached : bool; pulse : Z
}.

(** Globals are zero-initialised; the servo is not attached in [setup]. *)
Definition servo_boot : servo := mkServo 0 0 0 0 false 0.

Definition set_desired (d : Z) (s : servo) : servo :=
  mkServo (p_desired_servo_pos s) d (servo_pos s) (detach_timeout s)
          (attached s) (pulse s).
Definition set_pos (x : Z) (s : servo) : servo :=
  mkServo (p_desired_servo_pos s) (desired_servo_pos s) x (detach_timeout s)
          (attached s) (pulse s).
Definition set_timeout (t : Z) (s : servo) : servo :=
  mkServo (p_desired_servo_pos s) (desired_servo_pos s) (servo_pos s) t
          (attached s) (pulse s).
Definition set_attached (b : bool) (s : servo) : servo :=
  mkServo (p_desired_servo_pos s) (desired_servo_pos s) (servo_pos s)
          (detach_timeout s) b (pulse s).
Definition set_pulse (a : Z) (s : servo) : servo :=
  mkServo (p_desired_servo_pos s) (desired_servo_pos s) (servo_pos s)
          (detach_timeout s) (attached s) a.

(** [if (desired_servo_pos != p_desired_servo_pos) { attach; ... }] *)
Definition retarget (s : servo) : servo :=
  if negb (desired_servo_pos s =? p_desired_servo_pos s)
  then mkServo (desired_servo_pos s) (desired_servo_pos s) (servo_pos s) 0
               true (pulse s)
  else s.

(** The five statements inside [if (desired_servo_pos != servo_pos)]. *)
Definition step_up (s : servo) : servo :=
  if desired_servo_pos s >? servo_pos s
  then set_pos (Int.incr (servo_pos s)) s else s.

Definition step_down (s : servo) : servo :=
  if desired_servo_pos s <? servo_pos s
  then set_pos (Int.decr (servo_pos s)) s else s.

Definition snap (direct_access : Z) (s : servo) : servo :=
  if direct_access =? 1 then set_pos (desired_servo_pos s) s else s.

Definition count_arrival (s : servo) : servo :=
  if desired_servo_pos s =? servo_pos s
  then set_timeout (Int.incr (detach_timeout s)) s else s.

Definition write_servo (s : servo) : servo :=
  set_pulse (Int.wrap16 (Int.map (servo_pos s) 0 100 170 28)) s.

(** [if (desired_servo_pos != servo_pos) { ... }] *)
Definition move (direct_access : Z) (s : servo) : servo :=
  if negb (desired_servo_pos s =? servo_pos s)
  then write_servo (count_arrival (snap direct_access (step_down (step_up s))))
  else s.

(** [if (desired_servo_pos == servo_pos && detach_timeout < 51) ...] *)
Definition idle_count (s : servo) : servo :=
  if (desired_servo_pos s =? servo_pos s) && (detach_timeout s <? 51)
  then set_timeout (Int.incr (detach_timeout s)) s else s.

(** [if (detach_timeout == 50) myservo.detach();] *)
Definition release (s : servo) : servo :=
  if detach_timeout s =? 50 then set_attached false s else s.

Definition smooth_servo (destination direct_access : Z) (s : servo) : servo :=
  release (idle_count (move direct_access (retarget (set_desired destination s)))).

(** [n] successive calls with the same arguments. *)
Definition run_servo (destination direct_access : Z) (n : nat) (s : servo)
  : servo :=
  Nat.iter n (smooth_servo destination direct_access) s.

(** Summary of a servo state: previous target, position, detach counter
    and whether the servo is attached. *)
Definition servo_is (s : servo) (pd pos t : Z) (att : bool) : Prop :=
  p_desired_servo_pos s = pd /\ servo_pos s = pos /\
  detach_timeout s = t /\ attached s = att.

(** The call on which the position comes to rest on the target [d], and
    the call on which the detach counter stands at 50, counted from a
    call that gives a new target to the servo [s]. *)
Definition arrival_call (d mode : Z) (s : servo) : nat :=
  if d =? servo_pos s then 0%nat
  else if mode =? 1 then 1%nat
  else Z.to_nat (Z.abs (servo_pos s - d)).

Definition detach_call (d mode : Z) (s : servo) : nat :=
  if d =? servo_pos s then 50%nat else (arrival_call d mode s + 48)%nat.

(** ** Pin writes and delays *)

Inductive event :=
| DigitalWrite (pin : Z) (high : bool)
| Delay (ms : Z).

Definition LIGHT : Z := 7.
Definition MIXER : Z := 8.
Definition CLUTCH : Z := 10.
Definition MECH_OFF : event := DigitalWrite 10 false.
Definition MECH_ON : event := DigitalWrite 10 true.

(** ** Night switch-off: [auto_off_at_night] *)

Definition auto_off_at_night (match_time : Z) : list event :=
  (if match_time =? NIGHT
   then [MECH_OFF; DigitalWrite MIXER false; DigitalWrite LIGHT false]
   else [])
  ++
  (if (match_time =? DAY) || (match_time =? EVENING)
   then [MECH_ON; DigitalWrite MIXER true; DigitalWrite LIGHT true]
   else []).

(** ** Crank-speed governor: [measure_crank_speed] *)

Record crank := mkCrank {
  ms_per_rotation : Z;           (* long *)
  crank_speed_limit_count : Z;
  crank_time : Z;                (* long *)
  p_crank_time : Z;              (* long *)
  rotation : Z;
  rotation_trigger : Z;
  off_delay : Z;
  rpm_thresh : Z
}.

Definition set_count (n : Z) (k : crank) : crank :=
  mkCrank (ms_per_rotation k) n (crank_time k) (p_crank_time k)
          (rotation k) (rotation_trigger k) (off_delay k) (rpm_thresh k).
Definition set_rotation (r t : Z) (k : crank) : crank :=
  mkCrank (ms_per_rotation k) (crank_speed_limit_count k) (crank_time k)
          (p_crank_time k) r t (off_delay k) (rpm_thresh k).

(** Sampling of the rotation switch.  [ROTATION_SWITCH] is the level read
    on pin 9, which has a pull-up: the switch is closed when it is low. *)
Definition sense (ROTATION_SWITCH : bool) (k : crank) : crank :=
  let k0 := set_rotation (rotation k) 0 k in
  if negb ROTATION_SWITCH then
    if rotation k0 =? 0 then set_rotation 1 1 k0 else k0
  else set_rotation 0 (rotation_trigger k0) k0.

(** Timing of a new rotation; [millis] is the reading of the millisecond
    clock, an unsigned long stored into a long. *)
Definition measure (millis : Z) (k : crank) : crank :=
  if rotation_trigger k =? 1 then
    let p := crank_time k in
    let t := Int.wrap32 millis in
    let d := Int.wrap32 (t - p) in
    let n := if d <? rpm_thresh k
             then Int.incr (crank_speed_limit_count k) else 0 in
    mkCrank d n t p (rotation k) (rotation_trigger k)
            (off_delay k) (rpm_thresh k)
  else k.

(** [for (int i = off_delay; i > 0; i--) { ...; delay(1000); }] *)
Fixpoint countdown (n : nat) : list event :=
  match n with
  | O => []
  | S m => Delay 1000 :: countdown m
  end.

Definition lockout (k : crank) : crank * list event :=
  if crank_speed_limit_count k >=? 5
  then (set_count 0 k, MECH_OFF :: countdown (Z.to_nat (off_delay k)))
  else (k, []).

Definition measure_crank_speed (ROTATION_SWITCH : bool) (millis : Z) (k : crank)
  : crank * list event :=
  lockout (measure millis (sense ROTATION_SWITCH k)).

(** Total time spent in [delay] by a trace. *)
Fixpoint waited (tr : list event) : Z :=
  match tr with
  | [] => 0
  | Delay ms :: r => ms + waited r
  | DigitalWrite _ _ :: r => waited r
  end.

(** Levels of the switch pin. *)
Definition LOW : bool := false.
Definition HIGH : bool := true.

(** What holds of the governor's globals between two evaluations. *)
Definition governed (k : crank) : Prop :=
  0 <= crank_speed_limit_count k < 5 /\ (rotation k = 0 \/ rotation k = 1).

(** The duration that a rotation sensed at [millis] would be given. *)
Definition interval (millis : Z) (k : crank) : Z :=
  Int.wrap32 (Int.wrap32 millis - crank_time k).

Definition too_fast (millis : Z) (k : crank) : bool :=
  interval millis k <? rpm_thresh k.

(** One turn of the crank: an evaluation that finds the switch open, then
    one that finds it closed, at [millis]. *)
Definition turn (millis : Z) (k : crank) : crank * list event :=
  let '(k1, tr1) := measure_crank_speed HIGH millis k in
  let '(k2, tr2) := measure_crank_speed LOW millis k1 in
  (k2, tr1 ++ tr2).

(** Successive turns, and whether each of them is too fast. *)
Fixpoint turns (ts : list Z) (k : crank) : crank * list event :=
  match ts with
  | [] => (k, [])
  | t :: r =>
      let '(k1, tr1) := turn t k in
      let '(k2, tr2) := turns r k1 in
      (k2, tr1 ++ tr2)
  end.

Fixpoint all_fast (ts : list Z) (k : crank) : bool :=
  match ts with
  | [] => true
  | t :: r => too_fast t k && all_fast r (fst (turn t k))
  end.

(** ** Configuration store *)

(** The EEPROM library of the Arduino core: [read] returns the byte of a
    cell, [write] takes a [uint8_t], so an [int] argument is converted. *)
Definition eeprom := Z -> Z.

Definition EEPROM_read (e : eeprom) (addr : Z) : Z := e addr.
Definition EEPROM_write (addr value : Z) (e : eeprom) : eeprom :=
  fun a => if a =? addr then Int.to_byte value else e a.

Definition DAY_HOUR : Z := 0.
Definition DAY_MINUTE : Z := 2.
Definition DAY_VOLUME : Z := 4.
Definition EVENING_HOUR : Z := 6.
Definition EVENING_MINUTE : Z := 8.
Definition EVENING_VOLUME : Z := 10.
Definition NIGHT_HOUR : Z := 12.
Definition NIGHT_MINUTE : Z := 14.
Definition NIGHT_VOLUME : Z := 16.    (* plain sketch *)
Definition OFF_DELAY : Z := 16.       (* machine controller *)
Definition RPM_THRESH : Z := 18.

(** The reads of [setup].  The machine controller never assigns
    [night_volume], which stays 0. *)
Definition setup_config (p : program) (e : eeprom) : config :=
  mkConfig (EEPROM_read e DAY_HOUR) (EEPROM_read e DAY_MINUTE)
           (EEPROM_read e DAY_VOLUME)
           (EEPROM_read e EVENING_HOUR) (EEPROM_read e EVENING_MINUTE)
           (EEPROM_read e EVENING_VOLUME)
           (EEPROM_read e NIGHT_HOUR) (EEPROM_read e NIGHT_MINUTE)
           (match p with TBC => EEPROM_read e NIGHT_VOLUME | MCMC => 0 end).

Definition setup_crank (e : eeprom) : crank :=
  mkCrank 0 0 0 0 0 0 (EEPROM_read e OFF_DELAY) (EEPROM_read e RPM_THRESH).

(** The writes that end [set_trigger_times]. *)
Definition save_trigger_times (c : config) (e : eeprom) : eeprom :=
  EEPROM_write NIGHT_MINUTE (night_minute c)
   (EEPROM_write NIGHT_HOUR (night_hour c)
    (EEPROM_write EVENING_MINUTE (evening_minute c)
     (EEPROM_write EVENING_HOUR (evening_hour c)
      (EEPROM_write DAY_MINUTE (day_minute c)
       (EEPROM_write DAY_HOUR (day_hour c) e))))).

(** [set_crank_speed] once the button has been pressed: the last reading
    of the knob on each of the two screens gives the new threshold and the
    new delay, which are then written. *)
Definition set_crank_speed (poti_thresh poti_delay : Z) (k : crank) (e : eeprom)
  : crank * eeprom :=
  let thresh := Int.wrap16 (Int.map poti_thresh 1023 0 100 2000) in
  let delay := Int.wrap16 (Int.map poti_delay 1023 0 1 999) in
  let k' := mkCrank (ms_per_rotation k) (crank_speed_limit_count k)
                    (crank_time k) (p_crank_time k) (rotation k)
                    (rotation_trigger k) delay thresh in
  (k', EEPROM_write RPM_THRESH thresh (EEPROM_write OFF_DELAY delay e)).

(** ** The end of [loop] in the machine controller *)

Record machine := mkMachine {
  m_volume : Z; m_match_time : Z; m_servo : servo; m_crank : crank
}.

(** [set_volume_to_current_time(); smooth_servo(volume, 0);
     auto_off_at_night(); measure_crank_speed();] *)
Definition loop_tail (c : config) (fuel : nat) (now_hour now_minute : Z)
    (ROTATION_SWITCH : bool) (millis : Z) (m : machine)
  : option (machine * list event) :=
  match set_volume_to_current_time MCMC c fuel now_hour now_minute (m_volume m) with
  | None => None
  | Some r =>
      let sv := smooth_servo (volume r) 0 (m_servo m) in
      let tr1 := auto_off_at_night (match_time r) in
      let '(k, tr2) := measure_crank_speed ROTATION_SWITCH millis (m_crank m) in
      Some (mkMachine (volume r) (match_time r) sv k, tr1 ++ tr2)
  end.

(** ** Vocabulary for the further properties *)

(** Minutes elapsed since the time of day [h]:[m] last occurred, seen from
    [now_hour]:[now_minute]. *)
Definition minutes_since (now_hour now_minute h m : Z) : Z :=
  (60 * now_hour + now_minute - (60 * h + m)) mod 1440.

(** ** The knob and the screens *)

(** [var = map(POTI, 1023, 0, lo, hi)]: the setting read from the knob;
    the long result of [map] is stored in an int. *)
Definition knob (poti lo hi : Z) : Z := Int.wrap16 (Int.map poti 1023 0 lo hi).

(** [while (!BUTTON1) { ...; var = map(POTI, 1023, 0, lo, hi); ... }]:
    [readings] are the values of [POTI] on the passes made until the
    button is pressed; without a pass the variable keeps its value. *)
Fixpoint edit (lo hi : Z) (readings : list Z) (old : Z) : Z :=
  match readings with
  | [] => old
  | x :: r => edit lo hi r (knob x lo hi)
  end.

(** [state = map(POTI, 0, 1023, 6, 1)] in [loop]. *)
Definition select_state (poti : Z) : Z := Int.wrap16 (Int.map poti 0 1023 6 1).

(** The [switch (state)] of [loop] in each sketch. *)
Inductive screen :=
| display_time_and_volume
| screen_volume_day
| screen_volume_evening
| screen_volume_night
| screen_trigger_times
| screen_time
| screen_crank_speed.

Definition dispatch (p : program) (state : Z) : option screen :=
  if state =? 1 then Some display_time_and_volume
  else if state =? 2 then Some screen_volume_day
  else if state =? 3 then Some screen_volume_evening
  else if state =? 4
       then Some (match p with TBC => screen_volume_night
                             | MCMC => screen_trigger_times end)
  else if state =? 5
       then Some (match p with TBC => screen_trigger_times
                             | MCMC => screen_time end)
  else if state =? 6
       then Some (match p with TBC => screen_time
                             | MCMC => screen_crank_speed end)
  else None.

(** [set_time] once the button has been pressed: the hour and the minute
    given to [rtc.adjust]. *)
Definition set_time (hours minutes : list Z) (rtc_hour rtc_minute : Z)
  : Z * Z :=
  (edit 0 23 hours rtc_hour, edit 0 59 minutes rtc_minute).

(** One pass of the editing loop of [set_volume_day] and its siblings:
    [day_volume = map(POTI, 1023, 0, 0, 100); smooth_servo(day_volume, 1);]
    on the pair of the volume and the servo. *)
Definition volume_pass (x : Z) (vs : Z * servo) : Z * servo :=
  let v' := knob x 0 100 in
  (v', smooth_servo v' 1 (snd vs)).

(** The loop, one pass per reading. *)
Definition edit_volume (readings : list Z) (vs : Z * servo) : Z * servo :=
  fold_left (fun vs x => volume_pass x vs) readings vs.

(** [set_volume_day] and [set_volume_evening] once the button has been
    pressed. *)
Definition set_volume_day (readings : list Z) (c : config) (s : servo)
    (e : eeprom) : config * servo * eeprom :=
  let '(v, s') := edit_volume readings (day_volume c, s) in
  (mkConfig (day_hour c) (day_minute c) v
            (evening_hour c) (evening_minute c) (evening_volume c)
            (night_hour c) (night_minute c) (night_volume c),
   s', EEPROM_write DAY_VOLUME v e).

Definition set_volume_evening (readings : list Z) (c : config) (s : servo)
    (e : eeprom) : config * servo * eeprom :=
  let '(v, s') := edit_volume readings (evening_volume c, s) in
  (mkConfig (day_hour c) (day_minute c) (day_volume c)
            (evening_hour c) (evening_minute c) v
            (night_hour c) (night_minute c) (night_volume c),
   s', EEPROM_write EVENING_VOLUME v e).

(** [set_trigger_times] once the button has been pressed: six editing
    loops, then the six writes. *)
Definition set_trigger_times (dh dm eh em nh nm : list Z) (c : config)
    (e : eeprom) : config * eeprom :=
  let c' := mkConfig (edit 0 23 dh (day_hour c)) (edit 0 59 dm (day_minute c))
                     (day_volume c)
                     (edit 0 23 eh (evening_hour c))
                     (edit 0 59 em (evening_minute c))
                     (evening_volume c)
                     (edit 0 23 nh (night_hour c))
                     (edit 0 59 nm (night_minute c))
                     (night_volume c) in
  (c', save_trigger_times c' e).

(** Readings of the 10-bit converter. *)
Definition poti_range (x : Z) : Prop := 0 <= x <= 1023.

(** ** Sequences of calls and evaluations *)

(** Successive calls of [smooth_servo], each with its target and its
    mode. *)
Fixpoint servo_calls (calls : list (Z * Z)) (s : servo) : servo :=
  match calls with
  | [] => s
  | (d, a) :: r => servo_calls r (smooth_servo d a s)
  end.

(** What holds of the servo globals between two calls. *)
Definition servo_ok (s : servo) : Prop :=
  0 <= servo_pos s <= 100 /\
  0 <= detach_timeout s <= 51 /\
  (1 <= detach_timeout s -> servo_pos s = p_desired_servo_pos s) /\
  (50 <= detach_timeout s -> attached s = false).

(** The pulse that [myservo.write] is given for a position. *)
Definition pulse_of (pos : Z) : Z := Int.wrap16 (Int.map pos 0 100 170 28).

(** Successive evaluations of the governor, one per sample of the switch
    level and of the millisecond clock. *)
Fixpoint governor_run (samples : list (bool * Z)) (k : crank)
  : crank * list event :=
  match samples with
  | [] => (k, [])
  | (sw, t) :: r =>
      let '(k1, tr1) := measure_crank_speed sw t k in
      let '(k2, tr2) := governor_run r k1 in
      (k2, tr1 ++ tr2)
  end.

(** The value of [millis()] when [T] milliseconds have passed since the
    reset: an unsigned long. *)
Definition millis_at (T : Z) : Z := T mod 4294967296.


(** Successive passes of the end of [loop] at one time of day. *)
Fixpoint run_loop (c : config) (fuel : nat) (now_hour now_minute : Z)
    (inputs : list (bool * Z)) (mach : machine) : option machine :=
  match inputs with
  | [] => Some mach
  | (sw, ms) :: r =>
      match loop_tail c fuel now_hour now_minute sw ms mach with
      | None => None
      | Some (mach', _) => run_loop c fuel now_hour now_minute r mach'
      end
  end.

(** ** The end of [loop] in the plain sketch *)

Record plain := mkPlain {
  pl_volume : Z; pl_match_time : Z; pl_servo : servo
}.

(** [set_volume_to_current_time(); smooth_servo(volume, 0);] *)
Definition plain_loop_tail (c : config) (fuel : nat) (now_hour now_minute : Z)
    (st : plain) : option plain :=
  match set_volume_to_current_time TBC c fuel now_hour now_minute
          (pl_volume st) with
  | None => None
  | Some r =>
      Some (mkPlain (volume r) (match_time r)
                    (smooth_servo (volume r) 0 (pl_servo st)))
  end.

(** [n] passes at one time of day. *)
Fixpoint plain_run_loop (c : config) (fuel : nat) (now_hour now_minute : Z)
    (n : nat) (st : plain) : option plain :=
  match n with
  | O => Some st
  | S k =>
      match plain_loop_tail c fuel now_hour now_minute st with
      | None => None
      | Some st' => plain_run_loop c fuel now_hour now_minute k st'
      end
  end.

(** ** The display *)

(** Text sent to the LCD.  [lcd.print] of an int writes its decimal
    digits; a row shows what was printed last at each of its columns. *)
Module Display.

Import String.
Local Open Scope string_scope.
Local Open Scope Z_scope.

Definition print_int (z : Z) : string :=
  DecimalString.NilZero.string_of_int (Z.to_int z).

(** [if (v < 10) lcd.print("0"); lcd.print(v);] *)
Definition print2 (v : Z) : string :=
  (if v <? 10 then "0" else "") ++ print_int v.

(** [if (v < 10) lcd.print("0"); if (v < 100) lcd.print("0"); lcd.print(v);] *)
Definition print3 (v : Z) : string :=
  (if v <? 10 then "0" else "") ++ (if v <? 100 then "0" else "")
  ++ print_int v.

Definition print4 (v : Z) : string :=
  (if v <? 10 then "0" else "") ++ (if v <? 100 then "0" else "")
  ++ (if v <? 1000 then "0" else "") ++ print_int v.

(** The second row of [set_trigger_times] before the button is pressed;
    [third] is [(millis() / 3000) % 3]. *)
Definition trigger_times_row (p : program) (third : Z) (c : config) : string :=
  if third =? 0 then
    "day: " ++ print2 (day_hour c) ++ ":" ++ print2 (day_minute c)
    ++ match p with TBC => "    " | MCMC => "      " end
  else if third =? 1 then
    "evening: " ++ print2 (evening_hour c) ++ ":" ++ print2 (evening_minute c)
    ++ match p with TBC => "" | MCMC => "  " end
  else if third =? 2 then
    match p with TBC => "night: " | MCMC => "night/off: " end
    ++ print2 (night_hour c) ++ ":" ++ print2 (night_minute c)
    ++ match p with TBC => "  " | MCMC => "" end
  else "".

(** The two rows of [set_crank_speed] before the button is pressed;
    [half] is [(millis() / 3000) % 2]. *)
Definition crank_speed_rows (half : Z) (k : crank) : string * string :=
  if half =? 0
  then ("speed threshold:", print4 (rpm_thresh k) ++ " ms/rotation")
  else ("off time delay: ", print3 (off_delay k) ++ " seconds     ").

(** The two rows of [display_time_and_volume]. *)
Definition time_row (h m s match_time : Z) : string :=
  "  " ++ print2 h ++ ":" ++ print2 m ++ ":" ++ print2 s
  ++ (if match_time =? DAY then " (d)" else "")
  ++ (if match_time =? EVENING then " (e)" else "")
  ++ (if match_time =? NIGHT then " (n)" else "").

Definition volume_row (p : program) (match_time volume : Z) : string :=
  match p with
  | TBC => "  volume: " ++ print_int volume ++ "  "
  | MCMC =>
      if match_time <? NIGHT
      then "  volume: " ++ print_int volume ++ "  "
      else "installation off"
  end.

(** What a row shows once [text] has been printed from its first column
    over [old]. *)
Fixpoint overlay (text old : string) : string :=
  match text with
  | EmptyString => old
  | String ch t =>
      String ch (overlay t (match old with
                            | EmptyString => EmptyString
                            | String _ o => o
                            end))
  end.

(** A row after [lcd.clear()]. *)
Definition blank_row : string := "                ".

(** Checking all the numbers below [n]. *)
Definition all_below (n : nat) (P : Z -> bool) : bool :=
  forallb P (List.map Z.of_nat (seq 0 n)).

End Display.

(** * Properties *)

(** ** Machine integers *)

Lemma wrap16_small z : Int.in16 z -> Int.wrap16 z = z.
Proof.
  unfold Int.in16, Int.wrap16. intros H.
  rewrite Z.mod_small by lia. lia.
Qed.

Lemma incr_small z : -32768 <= z < 32767 -> Int.incr z = z + 1.
Proof. intros H. unfold Int.incr. apply wrap16_small. unfold Int.in16. lia. Qed.

Lemma decr_small z : -32768 < z <= 32767 -> Int.decr z = z - 1.
Proof. intros H. unfold Int.decr. apply wrap16_small. unfold Int.in16. lia. Qed.

(** ** Schedule matching *)

Section Matcher.

Variable p : program.
Variable c : config.

Lemma step_back_keeps s :
  volume (step_back s) = volume s /\ match_time (step_back s) = match_time s.
Proof.
  unfold step_back.
  destruct (scan_minute s >? 0); [|destruct (scan_hour s >? 0)]; simpl; auto.
Qed.

Lemma scanned_keeps k s :
  volume (scanned k s) = volume s /\ match_time (scanned k s) = match_time s.
Proof.
  unfold scanned. induction k as [|k IH]; [auto|].
  rewrite Nat.iter_succ.
  destruct (step_back_keeps (Nat.iter k step_back s)) as [Hv Hm].
  destruct IH as [IHv IHm]. split; congruence.
Qed.

Lemma at_time_test_day h m s : at_time h m (test_day c s) = at_time h m s.
Proof. unfold test_day. destruct (at_time (day_hour c) _ s); reflexivity. Qed.

Lemma at_time_test_evening h m s :
  at_time h m (test_evening c s) = at_time h m s.
Proof.
  unfold test_evening. destruct (at_time (evening_hour c) _ s); reflexivity.
Qed.

Ltac split_tests s :=
  unfold hit, hit_day, hit_evening, hit_night, tests, test_night;
  rewrite at_time_test_evening, at_time_test_day;
  unfold test_evening; rewrite at_time_test_day;
  unfold test_day;
  destruct (at_time (day_hour c) (day_minute c) s);
  destruct (at_time (evening_hour c) (evening_minute c) s);
  destruct (at_time (night_hour c) (night_minute c) s);
  destruct p; simpl.

Lemma tests_miss s : hit c s = false -> tests p c s = s.
Proof. split_tests s; intros H; try reflexivity; discriminate H. Qed.

Lemma tests_period s :
  hit c s = true ->
  match_time (tests p c s) =
    if hit_night c s then NIGHT else if hit_evening c s then EVENING else DAY.
Proof. split_tests s; intros H; try reflexivity; discriminate H. Qed.

Lemma tests_volume s :
  volume (tests p c s) =
    if hit_night c s && match p with TBC => true | MCMC => false end
    then night_volume c
    else if hit_evening c s then evening_volume c
    else if hit_day c s then day_volume c
    else volume s.
Proof. split_tests s; reflexivity. Qed.

Lemma scan_body_tests s : scan_body p c s = step_back (tests p c s).
Proof. reflexivity. Qed.

Lemma period_nonzero s : hit c s = true -> match_time (tests p c s) <> 0.
Proof.
  intros H. rewrite (tests_period s H).
  destruct (hit_night c s); [|destruct (hit_evening c s)];
    unfold NIGHT, EVENING, DAY; lia.
Qed.

Lemma scan_loop_done fuel s :
  match_time s <> 0 -> scan_loop p c fuel s = Some s.
Proof.
  intros H. apply Z.eqb_neq in H.
  destruct fuel; simpl; rewrite H; reflexivity.
Qed.

Lemma scan_loop_step fuel s :
  match_time s = 0 ->
  scan_loop p c (S fuel) s = scan_loop p c fuel (scan_body p c s).
Proof. intros H. simpl. rewrite H. reflexivity. Qed.

(** The loop returns at the first scanned minute that coincides with an
    entry, with what the tests computed there. *)
Lemma scan_loop_first_hit k :
  forall s fuel,
    match_time s = 0 ->
    hit c (scanned k s) = true ->
    (forall j, (j < k)%nat -> hit c (scanned j s) = false) ->
    (k < fuel)%nat ->
    scan_loop p c fuel s = Some (step_back (tests p c (scanned k s))).
Proof.
  induction k as [|k IH]; intros s fuel Hm Hk Hfirst Hfuel.
  - destruct fuel as [|fuel]; [lia|].
    rewrite scan_loop_step by assumption.
    rewrite scan_body_tests. unfold scanned in *. simpl in *.
    apply scan_loop_done.
    destruct (step_back_keeps (tests p c s)) as [_ ->].
    apply period_nonzero; assumption.
  - destruct fuel as [|fuel]; [lia|].
    rewrite scan_loop_step by assumption.
    assert (H0 : hit c s = false) by (apply (Hfirst 0%nat); lia).
    rewrite scan_body_tests, (tests_miss s H0).
    assert (Hsh : forall j, scanned j (step_back s) = scanned (S j) s).
    { intros j. unfold scanned. rewrite Nat.iter_succ_r. reflexivity. }
    rewrite <- (Hsh k). apply IH.
    + destruct (step_back_keeps s) as [_ ->]; assumption.
    + rewrite Hsh; assumption.
    + intros j Hj. rewrite Hsh. apply Hfirst. lia.
    + lia.
Qed.

(** Without a hit within the fuel the loop does not return. *)
Lemma scan_loop_no_hit fuel :
  forall s,
    match_time s = 0 ->
    (forall j, (j < fuel)%nat -> hit c (scanned j s) = false) ->
    scan_loop p c fuel s = None.
Proof.
  induction fuel as [|fuel IH]; intros s Hm Hno.
  - simpl. rewrite Hm. reflexivity.
  - rewrite scan_loop_step by assumption.
    assert (H0 : hit c s = false) by (apply (Hno 0%nat); lia).
    rewrite scan_body_tests, (tests_miss s H0).
    apply IH.
    + destruct (step_back_keeps s) as [_ ->]; assumption.
    + intros j Hj. unfold scanned. rewrite <- Nat.iter_succ_r.
      apply (Hno (S j)). lia.
Qed.

(** Some position within the first [n] has a hit, or none has. *)
Lemma first_hit_dec n s :
  (exists k, (k < n)%nat /\ hit c (scanned k s) = true /\
             forall j, (j < k)%nat -> hit c (scanned j s) = false)
  \/ (forall j, (j < n)%nat -> hit c (scanned j s) = false).
Proof.
  induction n as [|n IH].
  - right. intros j Hj. lia.
  - destruct IH as [[k [Hk [Hh Hf]]]|Hno].
    + left. exists k. repeat split; auto.
    + destruct (hit c (scanned n s)) eqn:Hn.
      * left. exists n. repeat split; auto.
      * right. intros j Hj.
        destruct (Nat.eq_dec j n) as [->|Hne]; [assumption|].
        apply Hno. lia.
Qed.

(** A returned result is the one of the first hit. *)
Lemma scan_loop_inv fuel s r :
  match_time s = 0 ->
  scan_loop p c fuel s = Some r ->
  exists k, (k < fuel)%nat /\ hit c (scanned k s) = true /\
            (forall j, (j < k)%nat -> hit c (scanned j s) = false) /\
            r = step_back (tests p c (scanned k s)).
Proof.
  intros Hm Hr.
  destruct (first_hit_dec fuel s) as [[k [Hk [Hh Hf]]]|Hno].
  - exists k. repeat split; auto.
    rewrite (scan_loop_first_hit k s fuel Hm Hh Hf Hk) in Hr.
    congruence.
  - rewrite (scan_loop_no_hit fuel s Hm Hno) in Hr. discriminate.
Qed.

(** *** The backward scan covers the whole day *)

Lemma step_back_minute s :
  valid_scan s ->
  valid_scan (step_back s) /\
  minute_of_day (step_back s) =
    if minute_of_day s =? 0 then 1439 else minute_of_day s - 1.
Proof.
  unfold valid_scan, valid_time, minute_of_day, step_back.
  destruct s as [h m v mt]; cbn [scan_hour scan_minute]. intros [Hh Hm].
  destruct (Z.gtb_spec m 0) as [Hpos|Hzero]; cbn [scan_hour scan_minute].
  - rewrite decr_small by lia.
    destruct (Z.eqb_spec (60 * h + m) 0); lia.
  - destruct (Z.gtb_spec h 0) as [Hhp|Hhz]; cbn [scan_hour scan_minute].
    + rewrite decr_small by lia.
      destruct (Z.eqb_spec (60 * h + m) 0); lia.
    + destruct (Z.eqb_spec (60 * h + m) 0); lia.
Qed.

Lemma scanned_down k s :
  valid_scan s ->
  Z.of_nat k <= minute_of_day s ->
  valid_scan (scanned k s) /\
  minute_of_day (scanned k s) = minute_of_day s - Z.of_nat k.
Proof.
  intros Hv. unfold scanned. induction k as [|k IH]; intros Hk.
  - simpl. split; [assumption|lia].
  - rewrite Nat.iter_succ.
    destruct IH as [IHv IHm]; [lia|].
    destruct (step_back_minute _ IHv) as [Hv' Hm'].
    split; [assumption|]. rewrite Hm'.
    destruct (Z.eqb_spec (minute_of_day (Nat.iter k step_back s)) 0); lia.
Qed.

Lemma valid_minute_bounds s : valid_scan s -> 0 <= minute_of_day s <= 1439.
Proof. unfold valid_scan, valid_time, minute_of_day. lia. Qed.

Lemma same_minute s th tm :
  valid_scan s -> valid_time th tm ->
  minute_of_day s = 60 * th + tm ->
  at_time th tm s = true.
Proof.
  unfold valid_scan, valid_time, minute_of_day, at_time.
  intros Hs Ht He.
  assert (scan_hour s = th) by lia.
  assert (scan_minute s = tm) by lia.
  apply andb_true_intro. split; apply Z.eqb_eq; assumption.
Qed.

(** Every valid time of day is met within 1440 steps back. *)
Lemma scanned_reach s th tm :
  valid_scan s -> valid_time th tm ->
  exists k, (k < 1440)%nat /\ at_time th tm (scanned k s) = true.
Proof.
  intros Hs Ht.
  pose proof (valid_minute_bounds s Hs) as Hb.
  set (t := 60 * th + tm).
  assert (Htb : 0 <= t <= 1439) by (unfold valid_time in Ht; subst t; lia).
  destruct (Z_le_gt_dec t (minute_of_day s)) as [Hle|Hgt].
  - exists (Z.to_nat (minute_of_day s - t)). split; [lia|].
    destruct (scanned_down (Z.to_nat (minute_of_day s - t)) s Hs) as [Hv Hm];
      [lia|].
    apply same_minute; auto. rewrite Hm. fold t. lia.
  - (* down to 00:00, across midnight, then down from 23:59 *)
    set (a := Z.to_nat (minute_of_day s)).
    set (b := Z.to_nat (1439 - t)).
    exists (b + S a)%nat. split; [lia|].
    destruct (scanned_down a s Hs) as [Hva Hma]; [lia|].
    destruct (step_back_minute _ Hva) as [Hv1 Hm1].
    rewrite Hma in Hm1.
    replace (minute_of_day s - Z.of_nat a) with 0 in Hm1 by lia.
    simpl in Hm1.
    destruct (scanned_down b _ Hv1) as [Hvb Hmb]; [lia|].
    unfold scanned in *. rewrite Nat.iter_add, Nat.iter_succ.
    apply same_minute; auto. rewrite Hmb, Hm1. fold t. lia.
Qed.

Lemma at_least_one_hit s :
  valid_scan s ->
  valid_time (day_hour c) (day_minute c) \/
  valid_time (evening_hour c) (evening_minute c) \/
  valid_time (night_hour c) (night_minute c) ->
  exists k, (k < 1440)%nat /\ hit c (scanned k s) = true.
Proof.
  intros Hs [H|[H|H]];
    destruct (scanned_reach s _ _ Hs H) as [k [Hk Hat]];
    exists k; (split; [assumption|]);
    unfold hit, hit_day, hit_evening, hit_night; rewrite Hat;
    rewrite ?orb_true_r; reflexivity.
Qed.

End Matcher.

(** C3: with Day=08:00, Evening=18:00, Night=23:00 a query at 20:15
    gives the period Evening and a query at 07:59 gives Night (the 23:00
    trigger of the day before), in both sketches and whatever the stored
    volumes and the volume on entry are. *)
Theorem matcher_examples :
  forall (p : program) (dv ev nv vol : Z),
    option_map match_time
      (set_volume_to_current_time p (example_config dv ev nv) day_steps 20 15 vol)
      = Some EVENING /\
    option_map match_time
      (set_volume_to_current_time p (example_config dv ev nv) day_steps 7 59 vol)
      = Some NIGHT.
Proof.
  intros p dv ev nv vol. split; destruct p; vm_compute; reflexivity.
Qed.

(** C4: for a valid current time and a configuration in which at least
    one of the three entries is a valid time of day, the backward scan
    returns after at most 1440 runs of its body, with one of the periods
    Day, Evening, Night; a larger bound gives the same result. *)
Theorem matcher_terminates :
  forall (p : program) (c : config) (h m vol : Z),
    valid_time h m ->
    valid_time (day_hour c) (day_minute c) \/
    valid_time (evening_hour c) (evening_minute c) \/
    valid_time (night_hour c) (night_minute c) ->
    exists r,
      set_volume_to_current_time p c day_steps h m vol = Some r /\
      (match_time r = DAY \/ match_time r = EVENING \/ match_time r = NIGHT) /\
      forall fuel, (day_steps <= fuel)%nat ->
        set_volume_to_current_time p c fuel h m vol = Some r.
Proof.
  intros p c h m vol Hnow Hcfg.
  set (s := mkScan h m vol 0).
  assert (Hs : valid_scan s) by exact Hnow.
  destruct (at_least_one_hit c s Hs Hcfg) as [k0 [Hk0 Hhit0]].
  destruct (first_hit_dec c day_steps s) as [[k [Hk [Hh Hf]]]|Hno].
  - exists (step_back (tests p c (scanned k s))).
    unfold set_volume_to_current_time. fold s.
    split; [apply scan_loop_first_hit; auto|].
    split.
    + destruct (step_back_keeps (tests p c (scanned k s))) as [_ ->].
      rewrite (tests_period p c _ Hh).
      destruct (hit_night c _); [|destruct (hit_evening c _)]; auto.
    + intros fuel Hfuel. apply scan_loop_first_hit; auto. lia.
  - rewrite (Hno k0 Hk0) in Hhit0. discriminate.
Qed.

Lemma matcher_terminates_witness :
  exists r,
    set_volume_to_current_time TBC (example_config 80 50 10) day_steps 7 59 0
      = Some r /\
    (match_time r = DAY \/ match_time r = EVENING \/ match_time r = NIGHT) /\
    forall fuel, (day_steps <= fuel)%nat ->
      set_volume_to_current_time TBC (example_config 80 50 10) fuel 7 59 0
        = Some r.
Proof.
  apply (matcher_terminates TBC (example_config 80 50 10) 7 59 0).
  - unfold valid_time. lia.
  - left. unfold valid_time. simpl. lia.
Defined.

(** C5: in the plain sketch the scan stops at the first scanned minute
    that coincides with an entry; when several entries coincide with that
    minute the one tested last decides both the period and the volume:
    Night over Evening over Day. *)
Theorem tie_break_last_tested :
  forall (c : config) (fuel : nat) (h m vol : Z) (k : nat),
    let s0 := mkScan h m vol 0 in
    let sk := scanned k s0 in
    (k < fuel)%nat ->
    hit c sk = true ->
    (forall j, (j < k)%nat -> hit c (scanned j s0) = false) ->
    exists r,
      set_volume_to_current_time TBC c fuel h m vol = Some r /\
      (hit_night c sk = true ->
         match_time r = NIGHT /\ volume r = night_volume c) /\
      (hit_night c sk = false -> hit_evening c sk = true ->
         match_time r = EVENING /\ volume r = evening_volume c) /\
      (hit_night c sk = false -> hit_evening c sk = false ->
         hit_day c sk = true /\
         match_time r = DAY /\ volume r = day_volume c).
Proof.
  intros c fuel h m vol k s0 sk Hk Hh Hf.
  exists (step_back (tests TBC c sk)).
  split.
  - unfold set_volume_to_current_time. fold s0.
    apply scan_loop_first_hit; auto.
  - destruct (step_back_keeps (tests TBC c sk)) as [-> ->].
    rewrite (tests_period TBC c sk Hh), (tests_volume TBC c sk).
    unfold hit in Hh.
    destruct (hit_night c sk), (hit_evening c sk), (hit_day c sk);
      simpl in *; repeat split; intros; congruence.
Qed.

Lemma tie_break_last_tested_witness :
  let s0 := mkScan 18 2 0 0 in
  let sk := scanned 2 s0 in
  exists r,
    set_volume_to_current_time TBC tie_config day_steps 18 2 0 = Some r /\
    (hit_night tie_config sk = true ->
       match_time r = NIGHT /\ volume r = night_volume tie_config) /\
    (hit_night tie_config sk = false -> hit_evening tie_config sk = true ->
       match_time r = EVENING /\ volume r = evening_volume tie_config) /\
    (hit_night tie_config sk = false -> hit_evening tie_config sk = false ->
       hit_day tie_config sk = true /\
       match_time r = DAY /\ volume r = day_volume tie_config).
Proof.
  apply (tie_break_last_tested tie_config day_steps 18 2 0 2).
  - unfold day_steps. lia.
  - vm_compute. reflexivity.
  - intros j Hj. destruct j as [|[|j]]; [reflexivity|reflexivity|lia].
Defined.

(** ** Night in the machine controller *)

Lemma smooth_servo_desired d a s :
  desired_servo_pos (smooth_servo d a s) = d.
Proof.
  assert (Hrel : forall x, desired_servo_pos (release x) = desired_servo_pos x).
  { intros x. unfold release. destruct (_ =? _); reflexivity. }
  assert (Hidle : forall x, desired_servo_pos (idle_count x) = desired_servo_pos x).
  { intros x. unfold idle_count. destruct (_ && _); reflexivity. }
  assert (Hup : forall x, desired_servo_pos (step_up x) = desired_servo_pos x).
  { intros x. unfold step_up. destruct (_ >? _); reflexivity. }
  assert (Hdn : forall x, desired_servo_pos (step_down x) = desired_servo_pos x).
  { intros x. unfold step_down. destruct (_ <? _); reflexivity. }
  assert (Hsn : forall x, desired_servo_pos (snap a x) = desired_servo_pos x).
  { intros x. unfold snap. destruct (_ =? _); reflexivity. }
  assert (Har : forall x, desired_servo_pos (count_arrival x) = desired_servo_pos x).
  { intros x. unfold count_arrival. destruct (_ =? _); reflexivity. }
  assert (Hmv : forall x, desired_servo_pos (move a x) = desired_servo_pos x).
  { intros x. unfold move. destruct (negb _); [|reflexivity].
    unfold write_servo. cbn [desired_servo_pos set_pulse].
    rewrite Har, Hsn, Hdn, Hup. reflexivity. }
  assert (Hrt : forall x, desired_servo_pos (retarget x) = desired_servo_pos x).
  { intros x. unfold retarget. destruct (negb _); reflexivity. }
  unfold smooth_servo. rewrite Hrel, Hidle, Hmv, Hrt. reflexivity.
Qed.

(** C10, as the code has it: in the machine controller the night test
    assigns the period only.  When the scan stops at the Night entry the
    volume is the one on entry, unless the Evening or the Day entry has
    the very same trigger time, in which case their tests, which run
    first, have assigned their volume (Evening over Day).  That volume is
    what the servo is commanded with, and the clutch, the mixer and the
    light are switched off. *)
Theorem night_sets_period_only :
  forall (c : config) (fuel : nat) (h m : Z) (sw : bool) (ms : Z)
         (mach : machine) (k : nat),
    let s0 := mkScan h m (m_volume mach) 0 in
    (k < fuel)%nat ->
    hit_night c (scanned k s0) = true ->
    (forall j, (j < k)%nat -> hit c (scanned j s0) = false) ->
    exists mach' tr',
      loop_tail c fuel h m sw ms mach =
        Some (mach',
              [MECH_OFF; DigitalWrite MIXER false; DigitalWrite LIGHT false]
                ++ tr') /\
      m_match_time mach' = NIGHT /\
      m_volume mach' =
        (if (evening_hour c =? night_hour c)
            && (evening_minute c =? night_minute c)
         then evening_volume c
         else if (day_hour c =? night_hour c)
                 && (day_minute c =? night_minute c)
         then day_volume c
         else m_volume mach) /\
      desired_servo_pos (m_servo mach') = m_volume mach'.
Proof.
  intros c fuel h m sw ms mach k s0 Hk Hn Hf.
  set (sk := scanned k s0) in *.
  assert (Hh : hit c sk = true).
  { unfold hit. rewrite Hn. apply orb_true_r. }
  assert (Hr : set_volume_to_current_time MCMC c fuel h m (m_volume mach)
               = Some (step_back (tests MCMC c sk))).
  { unfold set_volume_to_current_time. fold s0.
    apply scan_loop_first_hit; auto. }
  destruct (step_back_keeps (tests MCMC c sk)) as [Hv Hm].
  rewrite (tests_period MCMC c sk Hh), Hn in Hm.
  rewrite (tests_volume MCMC c sk), andb_false_r in Hv.
  destruct (scanned_keeps k s0) as [Hv0 _]. fold sk in Hv0.
  cbn [volume s0] in Hv0. rewrite Hv0 in Hv.
  unfold loop_tail. rewrite Hr, Hm.
  destruct (measure_crank_speed sw ms (m_crank mach)) as [kk tr2].
  eexists. exists tr2. split; [reflexivity|].
  cbn [m_match_time m_volume m_servo].
  split; [reflexivity|]. split; [|apply smooth_servo_desired].
  rewrite Hv.
  unfold hit_night, hit_evening, hit_day, at_time in *.
  apply andb_prop in Hn. destruct Hn as [Hnh Hnm].
  apply Z.eqb_eq in Hnh. apply Z.eqb_eq in Hnm.
  rewrite Hnh, Hnm.
  rewrite (Z.eqb_sym (night_hour c)), (Z.eqb_sym (night_minute c)).
  rewrite (Z.eqb_sym (night_hour c)), (Z.eqb_sym (night_minute c)).
  reflexivity.
Qed.

Lemma night_sets_period_only_witness :
  let c := example_config 80 50 0 in
  let mach := mkMachine 50 EVENING servo_boot (setup_crank (fun _ => 0)) in
  exists mach' tr',
    loop_tail c day_steps 23 2 HIGH 0 mach =
      Some (mach',
            [MECH_OFF; DigitalWrite MIXER false; DigitalWrite LIGHT false]
              ++ tr') /\
    m_match_time mach' = NIGHT /\
    m_volume mach' =
      (if (evening_hour c =? night_hour c)
          && (evening_minute c =? night_minute c)
       then evening_volume c
       else if (day_hour c =? night_hour c)
               && (day_minute c =? night_minute c)
       then day_volume c
       else m_volume mach) /\
    desired_servo_pos (m_servo mach') = m_volume mach'.
Proof.
  apply (night_sets_period_only (example_config 80 50 0) day_steps 23 2
           HIGH 0 (mkMachine 50 EVENING servo_boot (setup_crank (fun _ => 0)))
           2).
  - unfold day_steps. lia.
  - vm_compute. reflexivity.
  - intros j Hj. destruct j as [|[|j]]; [reflexivity|reflexivity|lia].
Defined.

(** C10 as worded fails when Evening and Night share a trigger time: the
    scan stops with the period Night and a volume that is not the one on
    entry. *)
Lemma night_tie_assigns_volume :
  ~ (forall (c : config) (fuel : nat) (h m vol : Z) (r : scan),
       set_volume_to_current_time MCMC c fuel h m vol = Some r ->
       match_time r = NIGHT ->
       volume r = vol).
Proof.
  intros H.
  specialize (H tie_config day_steps 18 30 0 (mkScan 17 59 50 NIGHT)
                eq_refl eq_refl).
  discriminate H.
Qed.

(** ** Servo smoothing *)

Lemma move_fields a pd d pos t att pu :
  -32768 < pos < 32767 ->
  move a (mkServo pd d pos t att pu) =
    if d =? pos then mkServo pd d pos t att pu
    else
      let pos' := if a =? 1 then d
                  else if d >? pos then pos + 1 else pos - 1 in
      mkServo pd d pos' (if d =? pos' then Int.incr t else t) att
              (Int.wrap16 (Int.map pos' 0 100 170 28)).
Proof.
  intros Hpos. unfold move.
  cbn [desired_servo_pos servo_pos].
  destruct (Z.eqb_spec d pos) as [He|Hne]; cbn [negb]; [reflexivity|].
  unfold step_up. cbn [desired_servo_pos servo_pos].
  destruct (Z.gtb_spec d pos) as [Hgt|Hle].
  - unfold set_pos at 1.
    cbn [p_desired_servo_pos desired_servo_pos servo_pos detach_timeout
         attached pulse].
    rewrite incr_small by lia.
    unfold step_down. cbn [desired_servo_pos servo_pos].
    destruct (Z.ltb_spec d (pos + 1)) as [Hlt|_]; [lia|].
    unfold snap, count_arrival, write_servo, set_pos, set_timeout, set_pulse.
    destruct (a =? 1);
      cbn [p_desired_servo_pos desired_servo_pos servo_pos detach_timeout
           attached pulse];
      destruct (_ =? _); reflexivity.
  - unfold step_down. cbn [desired_servo_pos servo_pos].
    destruct (Z.ltb_spec d pos) as [Hlt|Hge]; [|lia].
    unfold set_pos at 1.
    cbn [p_desired_servo_pos desired_servo_pos servo_pos detach_timeout
         attached pulse].
    rewrite decr_small by lia.
    unfold snap, count_arrival, write_servo, set_pos, set_timeout, set_pulse.
    destruct (a =? 1);
      cbn [p_desired_servo_pos desired_servo_pos servo_pos detach_timeout
           attached pulse];
      destruct (_ =? _); reflexivity.
Qed.

Lemma idle_count_fields pd d pos t att pu :
  idle_count (mkServo pd d pos t att pu) =
  mkServo pd d pos (if (d =? pos) && (t <? 51) then Int.incr t else t) att pu.
Proof.
  unfold idle_count. cbn [desired_servo_pos servo_pos detach_timeout].
  destruct (_ && _); reflexivity.
Qed.

Lemma release_fields pd d pos t att pu :
  release (mkServo pd d pos t att pu) =
  mkServo pd d pos t (if t =? 50 then false else att) pu.
Proof.
  unfold release. cbn [detach_timeout]. destruct (_ =? _); reflexivity.
Qed.

(** One call, when the target is the one of the call before. *)
Lemma smooth_servo_same a d ds pos t att pu :
  -32768 < pos < 32767 ->
  smooth_servo d a (mkServo d ds pos t att pu) =
    let pos' := if d =? pos then pos
                else if a =? 1 then d
                else if d >? pos then pos + 1 else pos - 1 in
    let t1 := if d =? pos then t
              else if d =? pos' then Int.incr t else t in
    let t2 := if (d =? pos') && (t1 <? 51) then Int.incr t1 else t1 in
    mkServo d d pos' t2 (if t2 =? 50 then false else att)
            (if d =? pos then pu else Int.wrap16 (Int.map pos' 0 100 170 28)).
Proof.
  intros Hpos. unfold smooth_servo, set_desired, retarget.
  cbn [p_desired_servo_pos desired_servo_pos servo_pos detach_timeout
       attached pulse].
  rewrite Z.eqb_refl. cbn [negb].
  rewrite (move_fields a d d pos t att pu Hpos).
  cbv zeta.
  destruct (d =? pos) eqn:He.
  - rewrite idle_count_fields, release_fields. rewrite He. reflexivity.
  - rewrite idle_count_fields, release_fields. reflexivity.
Qed.

(** One call with a new target: the servo is attached and the counter
    restarts from 0 before the rest of the call. *)
Lemma smooth_servo_new a d pd ds pos t att pu :
  d <> pd ->
  smooth_servo d a (mkServo pd ds pos t att pu) =
  smooth_servo d a (mkServo d d pos 0 true pu).
Proof.
  intros Hne. unfold smooth_servo, set_desired, retarget.
  cbn [p_desired_servo_pos desired_servo_pos servo_pos detach_timeout
       attached pulse].
  rewrite Z.eqb_refl. apply Z.eqb_neq in Hne. rewrite Hne. reflexivity.
Qed.

Lemma smooth_servo_pos d a s :
  -32768 < servo_pos s < 32767 ->
  servo_pos (smooth_servo d a s) =
    if d =? servo_pos s then servo_pos s
    else if a =? 1 then d
    else if d >? servo_pos s then servo_pos s + 1 else servo_pos s - 1.
Proof.
  destruct s as [pd ds pos t att pu]. cbn [servo_pos]. intros Hpos.
  destruct (Z.eq_dec d pd) as [->|Hne].
  - rewrite smooth_servo_same by assumption. reflexivity.
  - rewrite smooth_servo_new by assumption.
    rewrite smooth_servo_same by assumption. reflexivity.
Qed.

(** Position after [k] gradual calls: one unit per call toward the
    target, then at rest on it. *)
Lemma gradual_position d a k s :
  a <> 1 ->
  0 <= servo_pos s <= 100 -> 0 <= d <= 100 ->
  servo_pos (run_servo d a k s) =
    if servo_pos s <=? d
    then Z.min d (servo_pos s + Z.of_nat k)
    else Z.max d (servo_pos s - Z.of_nat k).
Proof.
  intros Ha Hs Hd. apply Z.eqb_neq in Ha.
  unfold run_servo. induction k as [|k IH].
  - simpl. destruct (Z.leb_spec (servo_pos s) d); lia.
  - rewrite Nat.iter_succ.
    set (sk := Nat.iter k (smooth_servo d a) s) in *.
    assert (Hk : 0 <= servo_pos sk <= 100).
    { rewrite IH. destruct (Z.leb_spec (servo_pos s) d); lia. }
    rewrite smooth_servo_pos by lia. rewrite Ha.
    destruct (Z.eqb_spec d (servo_pos sk)) as [He|Hne];
      [|destruct (Z.gtb_spec d (servo_pos sk))];
      rewrite IH in *;
      destruct (Z.leb_spec (servo_pos s) d); lia.
Qed.

(** C6: in gradual mode the position moves by at most one unit per call,
    whatever the target of the call, and, from a start in [0,100] with a
    fixed target in [0,100], goes one unit per call toward the target, is
    on the target after exactly |start - target| calls and on no earlier
    call; in immediate mode it is on the target after one call. *)
Theorem servo_reaches_target :
  forall (s : servo) (target mode : Z),
    0 <= servo_pos s <= 100 -> 0 <= target <= 100 -> mode <> 1 ->
    let n := Z.to_nat (Z.abs (servo_pos s - target)) in
    (forall (s' : servo) (d : Z),
        0 <= servo_pos s' <= 100 ->
        Z.abs (servo_pos (smooth_servo d mode s') - servo_pos s') <= 1) /\
    (forall k, (k <= n)%nat ->
        servo_pos (run_servo target mode k s) =
          if servo_pos s <=? target
          then servo_pos s + Z.of_nat k
          else servo_pos s - Z.of_nat k) /\
    servo_pos (run_servo target mode n s) = target /\
    (forall k, (k < n)%nat -> servo_pos (run_servo target mode k s) <> target) /\
    servo_pos (run_servo target 1 1 s) = target.
Proof.
  intros s target mode Hs Ht Hmode n.
  pose proof (fun k => gradual_position target mode k s Hmode Hs Ht) as Hpos.
  repeat split.
  - intros s' d Hs'. rewrite smooth_servo_pos by lia.
    apply Z.eqb_neq in Hmode. rewrite Hmode.
    destruct (d =? servo_pos s'); [lia|].
    destruct (d >? servo_pos s'); lia.
  - intros k Hk. rewrite Hpos.
    destruct (Z.leb_spec (servo_pos s) target); lia.
  - rewrite Hpos. destruct (Z.leb_spec (servo_pos s) target); lia.
  - intros k Hk. rewrite Hpos.
    destruct (Z.leb_spec (servo_pos s) target); lia.
  - unfold run_servo. simpl. rewrite smooth_servo_pos by lia.
    destruct (target =? servo_pos s) eqn:He; [|reflexivity].
    apply Z.eqb_eq in He. congruence.
Qed.

Lemma servo_reaches_target_witness :
  let s := mkServo 80 80 80 51 false 56 in
  let n := Z.to_nat (Z.abs (servo_pos s - 50)) in
  (forall (s' : servo) (d : Z),
      0 <= servo_pos s' <= 100 ->
      Z.abs (servo_pos (smooth_servo d 0 s') - servo_pos s') <= 1) /\
  (forall k, (k <= n)%nat ->
      servo_pos (run_servo 50 0 k s) =
        if servo_pos s <=? 50
        then servo_pos s + Z.of_nat k
        else servo_pos s - Z.of_nat k) /\
  servo_pos (run_servo 50 0 n s) = 50 /\
  (forall k, (k < n)%nat -> servo_pos (run_servo 50 0 k s) <> 50) /\
  servo_pos (run_servo 50 1 1 s) = 50.
Proof.
  apply (servo_reaches_target (mkServo 80 80 80 51 false 56) 50 0);
    simpl; lia.
Defined.

(** *** Detach counter *)

Lemma servo_is_step a d s pos t att :
  -32768 < pos < 32767 ->
  servo_is s d pos t att ->
  let pos' := if d =? pos then pos
              else if a =? 1 then d
              else if d >? pos then pos + 1 else pos - 1 in
  let t1 := if d =? pos then t
            else if d =? pos' then Int.incr t else t in
  let t2 := if (d =? pos') && (t1 <? 51) then Int.incr t1 else t1 in
  servo_is (smooth_servo d a s) d pos' t2 (if t2 =? 50 then false else att).
Proof.
  destruct s as [pd ds p t' att' pu]. unfold servo_is.
  cbn [p_desired_servo_pos servo_pos detach_timeout attached].
  intros Hpos (-> & -> & -> & ->).
  rewrite smooth_servo_same by assumption. cbv zeta.
  cbn [p_desired_servo_pos servo_pos detach_timeout attached]. auto.
Qed.

(** A new target: attach, counter from 0. *)
Lemma servo_is_new a d s :
  d <> p_desired_servo_pos s ->
  exists s', servo_is s' d (servo_pos s) 0 true /\
             forall k, run_servo d a (S k) s = run_servo d a (S k) s'.
Proof.
  destruct s as [pd ds pos t att pu]. cbn [p_desired_servo_pos servo_pos].
  intros Hne. exists (mkServo d d pos 0 true pu). split.
  - unfold servo_is. cbn. auto.
  - intros k. unfold run_servo. rewrite !Nat.iter_succ_r.
    rewrite smooth_servo_new by assumption. reflexivity.
Qed.

(** At rest on the target the counter goes up by one per call until 51,
    and the servo is detached from the call on which it stands at 50. *)
Lemma idle_phase a d j :
  forall s t0,
    0 <= d <= 100 -> 0 <= t0 <= 49 ->
    servo_is s d d t0 true ->
    servo_is (run_servo d a j s) d d
             (Z.min (t0 + Z.of_nat j) 51) (t0 + Z.of_nat j <? 50).
Proof.
  intros s t0 Hd Ht Hs. unfold run_servo. induction j as [|j IH].
  - simpl. rewrite Z.add_0_r.
    replace (Z.min t0 51) with t0 by lia.
    replace (t0 <? 50) with true by (symmetry; apply Z.ltb_lt; lia).
    assumption.
  - rewrite Nat.iter_succ.
    apply (servo_is_step a) in IH; [|lia]. cbv zeta in IH.
    rewrite Z.eqb_refl in IH. cbv iota in IH.
    rewrite Z.eqb_refl in IH. cbn [andb] in IH.
    set (t := Z.min (t0 + Z.of_nat j) 51) in *.
    revert IH. destruct (Z.ltb_spec t 51) as [Hlt|Hge]; intros IH.
    + rewrite incr_small in IH by lia.
      replace (Z.min (t0 + Z.of_nat (S j)) 51) with (t + 1) by lia.
      replace (t0 + Z.of_nat (S j) <? 50)
        with (if t + 1 =? 50 then false else t0 + Z.of_nat j <? 50);
        [assumption|].
      destruct (Z.eqb_spec (t + 1) 50);
        destruct (Z.ltb_spec (t0 + Z.of_nat j) 50);
        destruct (Z.ltb_spec (t0 + Z.of_nat (S j)) 50); lia.
    + replace (Z.min (t0 + Z.of_nat (S j)) 51) with t by lia.
      replace (t0 + Z.of_nat (S j) <? 50)
        with (if t =? 50 then false else t0 + Z.of_nat j <? 50);
        [assumption|].
      destruct (Z.eqb_spec t 50);
        destruct (Z.ltb_spec (t0 + Z.of_nat j) 50);
        destruct (Z.ltb_spec (t0 + Z.of_nat (S j)) 50); lia.
Qed.

(** On the way the counter stays at 0 and the servo attached. *)
Lemma moving_phase a d k :
  forall s pos,
    a <> 1 -> 0 <= pos <= 100 -> 0 <= d <= 100 ->
    servo_is s d pos 0 true ->
    (k < Z.to_nat (Z.abs (pos - d)))%nat ->
    servo_is (run_servo d a k s) d
             (if pos <=? d then pos + Z.of_nat k else pos - Z.of_nat k)
             0 true.
Proof.
  intros s pos Ha Hp Hd Hs. apply Z.eqb_neq in Ha.
  unfold run_servo. induction k as [|k IH]; intros Hk.
  - simpl. rewrite Z.add_0_r, Z.sub_0_r.
    destruct (pos <=? d); assumption.
  - rewrite Nat.iter_succ.
    specialize (IH ltac:(lia)).
    set (pk := if pos <=? d then pos + Z.of_nat k else pos - Z.of_nat k) in *.
    assert (Hpk : 0 <= pk <= 100 /\
                  (pos <= d -> pk + 1 < d) /\ (d < pos -> d < pk - 1)).
    { subst pk. destruct (Z.leb_spec pos d); lia. }
    apply (servo_is_step a) in IH; [|lia]. cbv zeta in IH.
    rewrite Ha in IH. revert IH.
    destruct (Z.eqb_spec d pk) as [He|Hne]; [lia|].
    destruct (Z.gtb_spec d pk) as [Hgt|Hle].
    + destruct (Z.eqb_spec d (pk + 1)) as [He|_]; [lia|].
      cbn [andb]. intros IH.
      replace (if pos <=? d then pos + Z.of_nat (S k) else pos - Z.of_nat (S k))
        with (pk + 1); [assumption|].
      subst pk. destruct (Z.leb_spec pos d); lia.
    + destruct (Z.eqb_spec d (pk - 1)) as [He|_]; [lia|].
      cbn [andb]. intros IH.
      replace (if pos <=? d then pos + Z.of_nat (S k) else pos - Z.of_nat (S k))
        with (pk - 1); [assumption|].
      subst pk. destruct (Z.leb_spec pos d); lia.
Qed.

(** The call that brings the position onto the target counts twice. *)
Lemma arrival_step a d s pos :
  0 <= pos <= 100 -> 0 <= d <= 100 -> pos <> d ->
  a = 1 \/ Z.abs (pos - d) = 1 ->
  servo_is s d pos 0 true ->
  servo_is (smooth_servo d a s) d d 2 true.
Proof.
  intros Hp Hd Hne Hlast Hs.
  apply (servo_is_step a) in Hs; [|lia]. cbv zeta in Hs.
  revert Hs. destruct (Z.eqb_spec d pos) as [He|_]; [lia|]. intros Hs.
  assert (Hpos' : (if a =? 1 then d
                   else if d >? pos then pos + 1 else pos - 1) = d).
  { destruct (Z.eqb_spec a 1); [reflexivity|].
    destruct (Z.gtb_spec d pos); lia. }
  rewrite Hpos' in Hs. rewrite Z.eqb_refl in Hs.
  cbn [andb] in Hs. exact Hs.
Qed.

(** From a freshly retargeted state: counter 0 and attached up to the
    arrival, then the idle count, which starts at 2 after a move and at
    0 when the position was on the target already. *)
Lemma on_the_way a d s pos k :
  0 <= pos <= 100 -> 0 <= d <= 100 ->
  servo_is s d pos 0 true ->
  (k < arrival_call d a s)%nat ->
  detach_timeout (run_servo d a k s) = 0 /\ attached (run_servo d a k s) = true.
Proof.
  intros Hp Hd Hs Hk.
  assert (Hpos : servo_pos s = pos) by apply Hs.
  unfold arrival_call in Hk. rewrite Hpos in Hk.
  destruct (Z.eqb_spec d pos) as [He|Hne]; [lia|].
  destruct (Z.eqb_spec a 1) as [Ha|Ha].
  - assert (k = 0%nat) by lia. subst k. simpl. split; apply Hs.
  - destruct (moving_phase a d k s pos Ha Hp Hd Hs Hk) as (_ & _ & Ht & Hat).
    auto.
Qed.

Lemma at_rest a d s pos j :
  0 <= pos <= 100 -> 0 <= d <= 100 ->
  servo_is s d pos 0 true ->
  let c0 := if d =? pos then 0 else 2 in
  servo_is (run_servo d a (j + arrival_call d a s) s) d d
           (Z.min (c0 + Z.of_nat j) 51) (c0 + Z.of_nat j <? 50).
Proof.
  intros Hp Hd Hs c0.
  assert (Hpos : servo_pos s = pos) by apply Hs.
  unfold run_servo. rewrite Nat.iter_add. fold (run_servo d a (arrival_call d a s) s).
  apply idle_phase; [assumption|subst c0; destruct (d =? pos); lia|].
  unfold arrival_call. rewrite Hpos. subst c0.
  destruct (Z.eqb_spec d pos) as [He|Hne].
  - rewrite <- He in Hs. exact Hs.
  - destruct (Z.eqb_spec a 1) as [Ha|Ha].
    + apply (arrival_step a d s pos); auto.
    + set (n := Z.to_nat (Z.abs (pos - d))).
      assert (Hn : (n = S (n - 1))%nat) by (subst n; lia).
      rewrite Hn. unfold run_servo. rewrite Nat.iter_succ.
      fold (run_servo d a (n - 1) s).
      assert (Hk : (n - 1 < Z.to_nat (Z.abs (pos - d)))%nat) by (subst n; lia).
      pose proof (moving_phase a d (n - 1) s pos Ha Hp Hd Hs Hk) as Hm.
      set (pk := if pos <=? d then pos + Z.of_nat (n - 1)
                 else pos - Z.of_nat (n - 1)) in *.
      assert (Hpk : 0 <= pk <= 100 /\ pk <> d /\ Z.abs (pk - d) = 1).
      { subst pk n. destruct (Z.leb_spec pos d); lia. }
      apply (arrival_step a d _ pk); intuition.
Qed.

(** C7, as the code has it: a call whose target differs from the one of
    the call before attaches the servo and restarts the detach counter,
    also when the position is on the new target already.  The call that
    brings the position onto the target counts twice, every later call
    once; the servo stays attached until the call on which the counter
    stands at 50 and is detached on that call: 48 calls after the call of
    arrival, or the 50th call when no move was needed.  It then stays
    detached while the target is unchanged. *)
Theorem detach_when_counter_is_50 :
  forall (s : servo) (d mode : Z),
    0 <= servo_pos s <= 100 -> 0 <= d <= 100 ->
    d <> p_desired_servo_pos s ->
    let A := arrival_call d mode s in
    let T := detach_call d mode s in
    attached (run_servo d mode 1 s) = true /\
    detach_timeout (run_servo d mode 1 s) =
      (if d =? servo_pos s then 1 else if (A =? 1)%nat then 2 else 0) /\
    servo_pos (run_servo d mode A s) = d /\
    (forall k, (1 <= k)%nat -> (A <= k <= T)%nat ->
        detach_timeout (run_servo d mode k s) = Z.of_nat (k + 50 - T)) /\
    (forall k, (1 <= k < T)%nat -> attached (run_servo d mode k s) = true) /\
    attached (run_servo d mode T s) = false /\
    (forall k, (T <= k)%nat -> attached (run_servo d mode k s) = false).
Proof.
  intros s d mode Hp Hd Hnew A T.
  destruct (servo_is_new mode d s Hnew) as [s' [Hs' Hrun]].
  assert (Hrun' : forall k, (1 <= k)%nat ->
                            run_servo d mode k s = run_servo d mode k s').
  { intros [|k] Hk; [lia|apply Hrun]. }
  assert (Hpos' : servo_pos s' = servo_pos s) by apply Hs'.
  assert (HA : arrival_call d mode s' = A).
  { unfold A, arrival_call. rewrite Hpos'. reflexivity. }
  assert (HT : T = if d =? servo_pos s then 50%nat else (A + 48)%nat)
    by reflexivity.
  pose proof (fun j => at_rest mode d s' (servo_pos s) j Hp Hd Hs') as Hrest.
  cbv zeta in Hrest. rewrite HA in Hrest.
  assert (Hway : forall k, (k < A)%nat ->
             detach_timeout (run_servo d mode k s') = 0 /\
             attached (run_servo d mode k s') = true).
  { intros k Hk. apply (on_the_way mode d s' (servo_pos s)); auto.
    rewrite HA. assumption. }
  assert (HA0 : d = servo_pos s -> A = 0%nat).
  { intros He. unfold A, arrival_call. rewrite <- He, Z.eqb_refl. reflexivity. }
  assert (HA1 : d <> servo_pos s -> (1 <= A)%nat).
  { intros Hne. unfold A, arrival_call.
    destruct (Z.eqb_spec d (servo_pos s)); [contradiction|].
    destruct (mode =? 1); lia. }
  (* the state on call [k], for [k] from the arrival on *)
  assert (Hafter : forall k, (1 <= k)%nat -> (A <= k)%nat ->
             detach_timeout (run_servo d mode k s) =
               Z.min ((if d =? servo_pos s then 0 else 2) + Z.of_nat (k - A)) 51 /\
             attached (run_servo d mode k s) =
               ((if d =? servo_pos s then 0 else 2) + Z.of_nat (k - A) <? 50)).
  { intros k Hk1 HkA. rewrite (Hrun' k Hk1).
    specialize (Hrest (k - A)%nat).
    replace (k - A + A)%nat with k in Hrest by lia.
    destruct Hrest as (_ & _ & Ht & Hat). auto. }
  repeat split.
  - destruct (Nat.le_gt_cases A 1) as [Hle|Hgt].
    + destruct (Hafter 1%nat) as [_ ->]; [lia|lia|].
      apply Z.ltb_lt. destruct (d =? servo_pos s); lia.
    + rewrite (Hrun' 1%nat) by lia. apply Hway. lia.
  - destruct (Z.eqb_spec d (servo_pos s)) as [He|Hne].
    + destruct (Hafter 1%nat) as [-> _]; [lia|rewrite (HA0 He); lia|].
      rewrite (HA0 He). destruct (Z.eqb_spec d (servo_pos s)); lia.
    + specialize (HA1 Hne).
      destruct (Nat.eqb_spec A 1) as [H1|H1].
      * destruct (Hafter 1%nat) as [-> _]; [lia|lia|].
        rewrite H1. destruct (Z.eqb_spec d (servo_pos s)); lia.
      * rewrite (Hrun' 1%nat) by lia. apply Hway. lia.
  - destruct (Z.eqb_spec d (servo_pos s)) as [He|Hne].
    + rewrite (HA0 He). simpl. congruence.
    + specialize (HA1 Hne). rewrite (Hrun' A HA1).
      specialize (Hrest 0%nat). simpl in Hrest. apply Hrest.
  - intros k Hk1 [HkA HkT].
    destruct (Hafter k Hk1 HkA) as [-> _].
    rewrite HT in *. destruct (Z.eqb_spec d (servo_pos s)) as [He|Hne].
    + rewrite (HA0 He) in *. lia.
    + lia.
  - intros k [Hk1 HkT].
    destruct (Nat.le_gt_cases A k) as [Hle|Hgt].
    + destruct (Hafter k Hk1 Hle) as [_ ->].
      apply Z.ltb_lt. rewrite HT in HkT.
      destruct (Z.eqb_spec d (servo_pos s)) as [He|Hne]; lia.
    + rewrite (Hrun' k Hk1). apply Hway. assumption.
  - assert (H1T : (1 <= T)%nat /\ (A <= T)%nat).
    { rewrite HT. destruct (Z.eqb_spec d (servo_pos s)) as [He|Hne];
        [rewrite (HA0 He)|]; lia. }
    destruct (Hafter T) as [_ ->]; [lia|lia|].
    apply Z.ltb_ge. rewrite HT.
    destruct (Z.eqb_spec d (servo_pos s)) as [He|Hne];
      [rewrite (HA0 He)|]; lia.
  - intros k HkT.
    assert (H1T : (1 <= T)%nat /\ (A <= T)%nat).
    { rewrite HT. destruct (Z.eqb_spec d (servo_pos s)) as [He|Hne];
        [rewrite (HA0 He)|]; lia. }
    destruct (Hafter k) as [_ ->]; [lia|lia|].
    apply Z.ltb_ge. rewrite HT in HkT.
    destruct (Z.eqb_spec d (servo_pos s)) as [He|Hne];
      [rewrite (HA0 He) in *|]; lia.
Qed.

Lemma detach_when_counter_is_50_witness :
  let A := arrival_call 1 0 servo_boot in
  let T := detach_call 1 0 servo_boot in
  attached (run_servo 1 0 1 servo_boot) = true /\
  detach_timeout (run_servo 1 0 1 servo_boot) =
    (if 1 =? servo_pos servo_boot then 1 else if (A =? 1)%nat then 2 else 0) /\
  servo_pos (run_servo 1 0 A servo_boot) = 1 /\
  (forall k, (1 <= k)%nat -> (A <= k <= T)%nat ->
      detach_timeout (run_servo 1 0 k servo_boot) = Z.of_nat (k + 50 - T)) /\
  (forall k, (1 <= k < T)%nat -> attached (run_servo 1 0 k servo_boot) = true) /\
  attached (run_servo 1 0 T servo_boot) = false /\
  (forall k, (T <= k)%nat -> attached (run_servo 1 0 k servo_boot) = false).
Proof.
  apply (detach_when_counter_is_50 servo_boot 1 0); simpl; lia.
Defined.

(** C7 as worded fails: after a move the servo does not stay attached for
    50 calls from the arrival.  From the boot state with target 1 the
    position arrives on call 1 and the servo is detached on call 49. *)
Lemma detached_before_50_calls :
  ~ (forall (s : servo) (d mode : Z) (k : nat),
       0 <= servo_pos s <= 100 -> 0 <= d <= 100 ->
       d <> p_desired_servo_pos s ->
       (1 <= k)%nat ->
       (arrival_call d mode s <= k < arrival_call d mode s + 50)%nat ->
       attached (run_servo d mode k s) = true).
Proof.
  intros H.
  specialize (H servo_boot 1 0 49%nat).
  assert (Hdet : attached (run_servo 1 0 49 servo_boot) = false)
    by (vm_compute; reflexivity).
  assert (HA : arrival_call 1 0 servo_boot = 1%nat) by reflexivity.
  rewrite H in Hdet; [discriminate Hdet| | | | |];
    rewrite ?HA; simpl; lia.
Qed.

(** ** Crank-speed governor *)

Lemma sense_fields sw d n t p r g od th :
  sense sw (mkCrank d n t p r g od th) =
  mkCrank d n t p
          (if sw then 0 else if r =? 0 then 1 else r)
          (if sw then 0 else if r =? 0 then 1 else 0)
          od th.
Proof.
  unfold sense, set_rotation. cbn [rotation rotation_trigger ms_per_rotation
    crank_speed_limit_count crank_time p_crank_time off_delay rpm_thresh].
  destruct sw; cbn [negb]; [reflexivity|].
  destruct (r =? 0); reflexivity.
Qed.

Lemma measure_fields ms d n t p r g od th :
  measure ms (mkCrank d n t p r g od th) =
  if g =? 1
  then mkCrank (Int.wrap32 (Int.wrap32 ms - t))
               (if Int.wrap32 (Int.wrap32 ms - t) <? th then Int.incr n else 0)
               (Int.wrap32 ms) t r g od th
  else mkCrank d n t p r g od th.
Proof. reflexivity. Qed.

Lemma lockout_fields d n t p r g od th :
  lockout (mkCrank d n t p r g od th) =
  if n >=? 5
  then (mkCrank d 0 t p r g od th, MECH_OFF :: countdown (Z.to_nat od))
  else (mkCrank d n t p r g od th, []).
Proof. reflexivity. Qed.

(** An evaluation that does not see a rising edge changes nothing but
    the remembered switch state. *)
Lemma no_edge sw ms k :
  crank_speed_limit_count k < 5 ->
  sw = HIGH \/ rotation k <> 0 ->
  measure_crank_speed sw ms k =
    (set_rotation (if sw then 0 else rotation k) 0 k, []).
Proof.
  destruct k as [d n t p r g od th].
  cbn [crank_speed_limit_count rotation]. intros Hn Hno.
  unfold measure_crank_speed. rewrite sense_fields.
  assert (Hr : (if sw then 0 else if r =? 0 then 1 else r)
               = (if sw then 0 else r) /\
               (if sw then 0 else if r =? 0 then 1 else 0) = 0).
  { destruct sw; [auto|]. destruct Hno as [Hsw|Hr]; [discriminate Hsw|].
    apply Z.eqb_neq in Hr. rewrite Hr. auto. }
  destruct Hr as [-> ->].
  rewrite measure_fields. cbn [Z.eqb].
  rewrite lockout_fields.
  destruct (Z.geb_spec n 5); [lia|]. reflexivity.
Qed.

(** An evaluation that sees a rising edge. *)
Lemma rising_edge ms k :
  rotation k = 0 ->
  measure_crank_speed LOW ms k =
    lockout (mkCrank (interval ms k)
                     (if too_fast ms k
                      then Int.incr (crank_speed_limit_count k) else 0)
                     (Int.wrap32 ms) (crank_time k) 1 1
                     (off_delay k) (rpm_thresh k)).
Proof.
  destruct k as [d n t p r g od th]. cbn [rotation]. intros ->.
  unfold measure_crank_speed, LOW. rewrite sense_fields.
  cbn [Z.eqb]. rewrite measure_fields. cbn [Z.eqb Pos.eqb].
  reflexivity.
Qed.

Lemma governed_boot e : governed (setup_crank e).
Proof. unfold governed, setup_crank. cbn. lia. Qed.

Lemma governed_step sw ms k :
  governed k -> governed (fst (measure_crank_speed sw ms k)).
Proof.
  intros [Hn Hr].
  destruct (Bool.bool_dec sw HIGH) as [Hsw|Hsw].
  - rewrite no_edge by (auto; lia). subst sw.
    unfold governed. destruct k; cbn in *. lia.
  - assert (sw = LOW) by (destruct sw; [contradiction Hsw|]; reflexivity).
    subst sw. destruct Hr as [Hr|Hr].
    + rewrite rising_edge by assumption. rewrite lockout_fields.
      destruct (too_fast ms k).
      * rewrite incr_small by lia.
        destruct (Z.geb_spec (crank_speed_limit_count k + 1) 5);
          unfold governed; cbn; lia.
      * cbn. unfold governed; cbn; lia.
    + rewrite no_edge by (try right; lia).
      unfold governed. destruct k; cbn in *. lia.
Qed.

Lemma waited_countdown n : waited (countdown n) = 1000 * Z.of_nat n.
Proof.
  induction n as [|n IH]; [reflexivity|].
  cbn [countdown waited]. rewrite IH. lia.
Qed.

Lemma rotation_after sw ms k :
  governed k ->
  rotation (fst (measure_crank_speed sw ms k)) = if sw then 0 else 1.
Proof.
  intros [Hn Hr]. destruct sw.
  - rewrite no_edge by (auto; lia). reflexivity.
  - destruct Hr as [Hr|Hr].
    + fold LOW. rewrite rising_edge by assumption. rewrite lockout_fields.
      destruct (_ >=? 5); reflexivity.
    + rewrite no_edge by (try right; lia). cbn. assumption.
Qed.

(** C2: on a rising edge the measured interval is compared with the
    threshold by strict less-than: the counter is incremented exactly
    when the interval is below the threshold and is set to 0 exactly when
    it is not; an interval equal to the threshold sets it to 0.  The
    counter is the one at the end of the measuring block, before the
    test for five violations. *)
Theorem violation_counter_rule :
  forall (k : crank) (ms : Z),
    governed k -> rotation k = 0 ->
    let k1 := measure ms (sense LOW k) in
    ms_per_rotation k1 = interval ms k /\
    (crank_speed_limit_count k1 = crank_speed_limit_count k + 1
       <-> interval ms k < rpm_thresh k) /\
    (crank_speed_limit_count k1 = 0 <-> rpm_thresh k <= interval ms k) /\
    (interval ms k = rpm_thresh k ->
       crank_speed_limit_count k1 = 0 /\
       crank_speed_limit_count (fst (measure_crank_speed LOW ms k)) = 0).
Proof.
  intros k ms [Hn _] Hr k1.
  assert (Hk1 : k1 = mkCrank (interval ms k)
                       (if interval ms k <? rpm_thresh k
                        then crank_speed_limit_count k + 1 else 0)
                       (Int.wrap32 ms) (crank_time k) 1 1
                       (off_delay k) (rpm_thresh k)).
  { subst k1. destruct k as [d n t p r g od th]. cbn [rotation] in Hr. subst r.
    unfold LOW. rewrite sense_fields. cbn [Z.eqb].
    rewrite measure_fields. cbn [Z.eqb Pos.eqb].
    cbn [crank_speed_limit_count] in *. rewrite incr_small by lia.
    reflexivity. }
  rewrite Hk1. cbn [ms_per_rotation crank_speed_limit_count].
  split; [reflexivity|].
  destruct (Z.ltb_spec (interval ms k) (rpm_thresh k)) as [Hlt|Hge].
  - repeat split; intros; try lia.
  - repeat split; intros; try lia.
    unfold measure_crank_speed. fold k1. rewrite Hk1.
    destruct (Z.ltb_spec (interval ms k) (rpm_thresh k)); [lia|].
    reflexivity.
Qed.

Lemma violation_counter_rule_witness :
  let k := mkCrank 0 2 1000 0 0 0 10 200 in
  let k1 := measure 1200 (sense LOW k) in
  ms_per_rotation k1 = interval 1200 k /\
  (crank_speed_limit_count k1 = crank_speed_limit_count k + 1
     <-> interval 1200 k < rpm_thresh k) /\
  (crank_speed_limit_count k1 = 0 <-> rpm_thresh k <= interval 1200 k) /\
  (interval 1200 k = rpm_thresh k ->
     crank_speed_limit_count k1 = 0 /\
     crank_speed_limit_count (fst (measure_crank_speed LOW 1200 k)) = 0).
Proof.
  apply (violation_counter_rule (mkCrank 0 2 1000 0 0 0 10 200) 1200).
  - unfold governed. simpl. lia.
  - reflexivity.
Defined.

(** C9: a rotation is registered on the evaluation that finds the switch
    closed after an evaluation that found it open, and on no other;
    while the switch stays closed, or is open, the timing variables and
    the violation counter are left as they are and nothing is output. *)
Theorem edge_triggered :
  forall (k : crank) (sw1 sw2 : bool) (t1 t2 : Z),
    governed k ->
    let k1 := fst (measure_crank_speed sw1 t1 k) in
    let k2 := fst (measure_crank_speed sw2 t2 k1) in
    (rotation_trigger k2 = 1 <-> sw1 = HIGH /\ sw2 = LOW) /\
    (~ (sw1 = HIGH /\ sw2 = LOW) ->
       ms_per_rotation k2 = ms_per_rotation k1 /\
       crank_time k2 = crank_time k1 /\
       p_crank_time k2 = p_crank_time k1 /\
       crank_speed_limit_count k2 = crank_speed_limit_count k1 /\
       snd (measure_crank_speed sw2 t2 k1) = []).
Proof.
  intros k sw1 sw2 t1 t2 Hg k1 k2.
  assert (Hg1 : governed k1) by (apply governed_step; assumption).
  assert (Hr1 : rotation k1 = if sw1 then 0 else 1)
    by (apply rotation_after; assumption).
  destruct Hg1 as [Hn1 _].
  destruct sw2.
  - (* open *)
    subst k2. rewrite no_edge by (auto; lia). cbn.
    split; [split; [lia|intros [_ H]; discriminate H]|].
    intros _. destruct k1; cbn. auto.
  - destruct sw1.
    + (* open, then closed *)
      subst k2. fold LOW. rewrite rising_edge by assumption.
      rewrite lockout_fields.
      split.
      * destruct (_ >=? 5); cbn; split; auto.
      * intros H. exfalso. apply H. auto.
    + (* closed twice *)
      subst k2. rewrite no_edge by (try right; lia). cbn.
      split; [split; [lia|intros [H _]; discriminate H]|].
      intros _. destruct k1; cbn. auto.
Qed.

Lemma edge_triggered_witness :
  let k := setup_crank (fun _ => 100) in
  let k1 := fst (measure_crank_speed LOW 5000 k) in
  let k2 := fst (measure_crank_speed LOW 5015 k1) in
  (rotation_trigger k2 = 1 <-> LOW = HIGH /\ LOW = LOW) /\
  (~ (LOW = HIGH /\ LOW = LOW) ->
     ms_per_rotation k2 = ms_per_rotation k1 /\
     crank_time k2 = crank_time k1 /\
     p_crank_time k2 = p_crank_time k1 /\
     crank_speed_limit_count k2 = crank_speed_limit_count k1 /\
     snd (measure_crank_speed LOW 5015 k1) = []).
Proof.
  apply (edge_triggered (setup_crank (fun _ => 100)) LOW LOW 5000 5015).
  unfold governed. simpl. lia.
Defined.

(** One turn, from any state between two evaluations. *)
Lemma turn_fields t k :
  governed k ->
  turn t k =
    lockout (mkCrank (interval t k)
                     (if too_fast t k
                      then crank_speed_limit_count k + 1 else 0)
                     (Int.wrap32 t) (crank_time k) 1 1
                     (off_delay k) (rpm_thresh k)).
Proof.
  intros [Hn Hr]. unfold turn.
  rewrite no_edge by (auto; lia). unfold HIGH.
  rewrite rising_edge by reflexivity.
  destruct k as [d n ct p r g od th].
  cbn [set_rotation ms_per_rotation crank_speed_limit_count crank_time
       p_crank_time off_delay rpm_thresh] in *.
  unfold too_fast, interval. cbn [crank_time rpm_thresh].
  rewrite incr_small by lia.
  destruct (lockout _) as [k2 tr2]. reflexivity.
Qed.

(** Up to four fast turns in a row are counted and have no other effect
    on the governor's settings. *)
Lemma fast_turns_counted ts :
  forall k,
    governed k ->
    crank_speed_limit_count k + Z.of_nat (length ts) <= 4 ->
    all_fast ts k = true ->
    governed (fst (turns ts k)) /\
    crank_speed_limit_count (fst (turns ts k))
      = crank_speed_limit_count k + Z.of_nat (length ts) /\
    snd (turns ts k) = [] /\
    off_delay (fst (turns ts k)) = off_delay k /\
    rpm_thresh (fst (turns ts k)) = rpm_thresh k.
Proof.
  induction ts as [|t r IH]; intros k Hg Hlen Hfast.
  - cbn. repeat split; try apply Hg; lia.
  - cbn [all_fast] in Hfast. apply andb_prop in Hfast.
    destruct Hfast as [Hf Hrest].
    cbn [length] in Hlen. destruct Hg as [Hn Hr].
    assert (Hturn : turn t k =
              (mkCrank (interval t k) (crank_speed_limit_count k + 1)
                       (Int.wrap32 t) (crank_time k) 1 1
                       (off_delay k) (rpm_thresh k), [])).
    { rewrite turn_fields by (split; assumption). rewrite Hf.
      rewrite lockout_fields.
      destruct (Z.geb_spec (crank_speed_limit_count k + 1) 5); [lia|].
      reflexivity. }
    rewrite Hturn in Hrest. cbn [fst] in Hrest.
    cbn [turns]. rewrite Hturn.
    set (k1 := mkCrank _ _ _ _ _ _ _ _) in *.
    assert (Hg1 : governed k1) by (unfold governed; cbn; lia).
    specialize (IH k1 Hg1).
    destruct (turns r k1) as [k2 tr2] eqn:E. cbn [fst snd] in *.
    destruct IH as (Hg2 & Hc & Htr & Hod & Hth);
      [cbn; lia|assumption|].
    repeat split; try apply Hg2; cbn in *; try lia; try congruence.
Qed.

(** C1: after four fast turns in a row, the evaluation that registers the
    fifth one opens the clutch first, then waits [off_delay] seconds and
    ends with the violation counter at 0; nothing is output for the first
    four.  A sixth fast turn after that is counted as a first one and
    does not start a lockout. *)
Theorem lockout_on_fifth_fast_turn :
  forall (k : crank) (ts : list Z) (t5 : Z),
    governed k -> crank_speed_limit_count k = 0 ->
    length ts = 4%nat -> all_fast ts k = true ->
    let k4 := fst (turns ts k) in
    too_fast t5 k4 = true ->
    let k4' := fst (measure_crank_speed HIGH t5 k4) in
    let k5 := fst (measure_crank_speed LOW t5 k4') in
    let tr5 := snd (measure_crank_speed LOW t5 k4') in
    snd (turns ts k) = [] /\
    snd (measure_crank_speed HIGH t5 k4) = [] /\
    tr5 = MECH_OFF :: countdown (Z.to_nat (off_delay k)) /\
    waited tr5 = 1000 * Z.max 0 (off_delay k) /\
    crank_speed_limit_count k5 = 0 /\
    forall t6,
      too_fast t6 k5 = true ->
      snd (turn t6 k5) = [] /\
      crank_speed_limit_count (fst (turn t6 k5)) = 1.
Proof.
  intros k ts t5 Hg H0 Hlen Hfast k4 Hf5 k4' k5 tr5.
  destruct (fast_turns_counted ts k Hg) as (Hg4 & Hc4 & Htr4 & Hod & Hth);
    [lia|assumption|].
  fold k4 in Hg4, Hc4, Hod, Hth.
  rewrite H0, Hlen in Hc4. cbn in Hc4.
  pose proof (turn_fields t5 k4 Hg4) as Hturn.
  unfold turn in Hturn.
  assert (Hopen : measure_crank_speed HIGH t5 k4
                  = (set_rotation 0 0 k4, [])).
  { destruct Hg4 as [Hn _]. rewrite no_edge by (auto; lia). reflexivity. }
  rewrite Hopen in Hturn.
  assert (Hk4' : k4' = set_rotation 0 0 k4) by (subst k4'; rewrite Hopen; reflexivity).
  assert (Hclosed : measure_crank_speed LOW t5 k4' =
            (mkCrank (interval t5 k4) 0 (Int.wrap32 t5) (crank_time k4) 1 1
                     (off_delay k4) (rpm_thresh k4),
             MECH_OFF :: countdown (Z.to_nat (off_delay k4)))).
  { rewrite Hk4'.
    destruct (measure_crank_speed LOW t5 (set_rotation 0 0 k4)) as [kk tt].
    cbn [app] in Hturn. rewrite Hturn, Hf5, Hc4.
    rewrite lockout_fields. reflexivity. }
  subst k5 tr5. rewrite Hclosed. cbn [fst snd].
  rewrite Hopen. cbn [snd]. rewrite Hod.
  split; [assumption|]. split; [reflexivity|]. split; [reflexivity|].
  split.
  { unfold MECH_OFF. cbn [waited]. rewrite waited_countdown. lia. }
  split; [reflexivity|].
  intros t6 Hf6.
  clear Hturn Hclosed.
  match goal with |- context [turn t6 ?x] => set (k5 := x) in * end.
  assert (Hg5 : governed k5).
  { unfold governed, k5. cbn [crank_speed_limit_count rotation]. lia. }
  rewrite (turn_fields t6 k5 Hg5), Hf6. unfold k5 at 2.
  cbn [crank_speed_limit_count].
  rewrite lockout_fields. cbn. auto.
Qed.

Lemma lockout_on_fifth_fast_turn_witness :
  let k := mkCrank 0 0 0 0 0 0 3 200 in
  let ts := [100; 200; 300; 400] in
  let k4 := fst (turns ts k) in
  let k4' := fst (measure_crank_speed HIGH 500 k4) in
  let k5 := fst (measure_crank_speed LOW 500 k4') in
  let tr5 := snd (measure_crank_speed LOW 500 k4') in
  snd (turns ts k) = [] /\
  snd (measure_crank_speed HIGH 500 k4) = [] /\
  tr5 = MECH_OFF :: countdown (Z.to_nat (off_delay k)) /\
  waited tr5 = 1000 * Z.max 0 (off_delay k) /\
  crank_speed_limit_count k5 = 0 /\
  forall t6,
    too_fast t6 k5 = true ->
    snd (turn t6 k5) = [] /\
    crank_speed_limit_count (fst (turn t6 k5)) = 1.
Proof.
  apply (lockout_on_fifth_fast_turn (mkCrank 0 0 0 0 0 0 3 200)
           [100; 200; 300; 400] 500).
  - unfold governed. simpl. lia.
  - reflexivity.
  - reflexivity.
  - vm_compute. reflexivity.
  - vm_compute. reflexivity.
Defined.

(** ** Configuration store *)

Lemma EEPROM_read_write addr v e :
  EEPROM_read (EEPROM_write addr v e) addr = Int.to_byte v.
Proof. unfold EEPROM_read, EEPROM_write. rewrite Z.eqb_refl. reflexivity. Qed.

Lemma EEPROM_read_other addr addr' v e :
  addr' <> addr ->
  EEPROM_read (EEPROM_write addr v e) addr' = EEPROM_read e addr'.
Proof.
  intros H. unfold EEPROM_read, EEPROM_write.
  apply Z.eqb_neq in H. rewrite H. reflexivity.
Qed.

(** A value that fits a byte is read back as written; this covers the
    hours, the minutes and the volumes. *)
Lemma byte_round_trip addr v e :
  0 <= v < 256 -> EEPROM_read (EEPROM_write addr v e) addr = v.
Proof.
  intros H. rewrite EEPROM_read_write. unfold Int.to_byte.
  apply Z.mod_small. assumption.
Qed.

(** A wider [int] is not. *)
Lemma wide_value_lost addr v e :
  256 <= v -> EEPROM_read (EEPROM_write addr v e) addr <> v.
Proof.
  intros H. rewrite EEPROM_read_write. unfold Int.to_byte.
  pose proof (Z.mod_pos_bound v 256 ltac:(lia)). lia.
Qed.

Lemma trigger_times_round_trip p c e :
  valid_time (day_hour c) (day_minute c) ->
  valid_time (evening_hour c) (evening_minute c) ->
  valid_time (night_hour c) (night_minute c) ->
  let c' := setup_config p (save_trigger_times c e) in
  day_hour c' = day_hour c /\ day_minute c' = day_minute c /\
  evening_hour c' = evening_hour c /\ evening_minute c' = evening_minute c /\
  night_hour c' = night_hour c /\ night_minute c' = night_minute c.
Proof.
  unfold valid_time. intros Hd He Hn.
  unfold setup_config, save_trigger_times, EEPROM_read, EEPROM_write,
    Int.to_byte.
  cbn. repeat split; apply Z.mod_small; lia.
Qed.

(** C8 at the knob position that gives the largest settings: the
    threshold 2000 ms and the delay 999 s chosen in [set_crank_speed] are
    in use until the next reset, but what [setup] reads back from the
    store is 208 and 231: [EEPROM.write] keeps the low byte only. *)
Theorem threshold_not_restored :
  forall (k : crank) (e : eeprom),
    let k' := fst (set_crank_speed 0 0 k e) in
    let e' := snd (set_crank_speed 0 0 k e) in
    rpm_thresh k' = 2000 /\ off_delay k' = 999 /\
    rpm_thresh (setup_crank e') = 208 /\ off_delay (setup_crank e') = 231.
Proof.
  intros k e. vm_compute. auto.
Qed.

(** * Further properties *)

(** ** The scan as a function of the time of day *)

Lemma scanned_minute k s :
  valid_scan s ->
  valid_scan (scanned k s) /\
  minute_of_day (scanned k s) = (minute_of_day s - Z.of_nat k) mod 1440.
Proof.
  intros Hs. unfold scanned. induction k as [|k IH].
  - simpl. split; [assumption|].
    pose proof (valid_minute_bounds s Hs).
    rewrite Z.sub_0_r, Z.mod_small; lia.
  - rewrite Nat.iter_succ. destruct IH as [IHv IHm].
    destruct (step_back_minute _ IHv) as [Hv Hm].
    split; [assumption|]. rewrite Hm.
    pose proof (valid_minute_bounds _ IHv) as Hb.
    replace (minute_of_day s - Z.of_nat (S k))
      with ((minute_of_day s - Z.of_nat k) - 1) by lia.
    rewrite <- Zminus_mod_idemp_l, <- IHm.
    destruct (Z.eqb_spec (minute_of_day (Nat.iter k step_back s)) 0) as [E|E].
    + rewrite E. reflexivity.
    + rewrite Z.mod_small; lia.
Qed.

(** Within a day, the scan is on a valid entry exactly at the step that
    equals the number of minutes since that entry's time. *)
Lemma mod_day_swap m0 t z :
  0 <= m0 < 1440 -> 0 <= t < 1440 -> 0 <= z < 1440 ->
  (m0 - z) mod 1440 = t <-> z = (m0 - t) mod 1440.
Proof. intros H0 Ht Hz. split; intros E; Z.div_mod_to_equations; lia. Qed.

Lemma at_time_scanned h m vol th tm j :
  valid_time h m -> valid_time th tm -> (j < 1440)%nat ->
  at_time th tm (scanned j (mkScan h m vol 0)) =
  (Z.of_nat j =? minutes_since h m th tm).
Proof.
  intros Hnow Ht Hj.
  set (s := mkScan h m vol 0).
  assert (Hs : valid_scan s) by exact Hnow.
  destruct (scanned_minute j s Hs) as [Hv Hm].
  unfold minutes_since.
  change (60 * h + m) with (minute_of_day s).
  pose proof (valid_minute_bounds s Hs) as Hb.
  assert (Htb : 0 <= 60 * th + tm < 1440) by (unfold valid_time in Ht; lia).
  pose proof (mod_day_swap (minute_of_day s) (60 * th + tm) (Z.of_nat j)
                ltac:(lia) Htb ltac:(lia)) as Hswap.
  destruct (Z.eqb_spec (Z.of_nat j) ((minute_of_day s - (60 * th + tm)) mod 1440))
    as [E|E].
  - apply same_minute; auto. rewrite Hm. apply Hswap. assumption.
  - destruct (at_time th tm (scanned j s)) eqn:Hat; [|reflexivity].
    exfalso. apply E. apply Hswap. rewrite <- Hm.
    unfold at_time in Hat.
    apply andb_prop in Hat. destruct Hat as [H1 H2].
    apply Z.eqb_eq in H1. apply Z.eqb_eq in H2.
    unfold minute_of_day. lia.
Qed.

Lemma minutes_since_bounds h m th tm : 0 <= minutes_since h m th tm < 1440.
Proof. unfold minutes_since. apply Z.mod_pos_bound. lia. Qed.

(** X1: with three valid entries the period is the one of the entry
    whose time of day was reached most recently, Night before Evening
    before Day when several are equally recent; for Day and Evening, and
    for Night in the plain sketch, the volume is the one of that entry. *)
Theorem most_recent_trigger_wins :
  forall (p : program) (c : config) (h m vol : Z),
    valid_time h m ->
    valid_time (day_hour c) (day_minute c) ->
    valid_time (evening_hour c) (evening_minute c) ->
    valid_time (night_hour c) (night_minute c) ->
    let dd := minutes_since h m (day_hour c) (day_minute c) in
    let de := minutes_since h m (evening_hour c) (evening_minute c) in
    let dn := minutes_since h m (night_hour c) (night_minute c) in
    exists r,
      set_volume_to_current_time p c day_steps h m vol = Some r /\
      match_time r =
        (if (dn <=? dd) && (dn <=? de) then NIGHT
         else if de <=? dd then EVENING else DAY) /\
      (match_time r = DAY -> volume r = day_volume c) /\
      (match_time r = EVENING -> volume r = evening_volume c) /\
      (match_time r = NIGHT -> p = TBC -> volume r = night_volume c).
Proof.
  intros p c h m vol Hnow Hd He Hn dd de dn.
  pose proof (minutes_since_bounds h m (day_hour c) (day_minute c)) as Bd.
  pose proof (minutes_since_bounds h m (evening_hour c) (evening_minute c)) as Be.
  pose proof (minutes_since_bounds h m (night_hour c) (night_minute c)) as Bn.
  fold dd in Bd. fold de in Be. fold dn in Bn.
  set (s0 := mkScan h m vol 0).
  set (k := Z.to_nat (Z.min dn (Z.min dd de))).
  assert (Hk : (k < 1440)%nat) by (subst k; lia).
  assert (Hday : forall j, (j < 1440)%nat ->
            hit_day c (scanned j s0) = (Z.of_nat j =? dd))
    by (intros j Hj; apply at_time_scanned; assumption).
  assert (Heve : forall j, (j < 1440)%nat ->
            hit_evening c (scanned j s0) = (Z.of_nat j =? de))
    by (intros j Hj; apply at_time_scanned; assumption).
  assert (Hnig : forall j, (j < 1440)%nat ->
            hit_night c (scanned j s0) = (Z.of_nat j =? dn))
    by (intros j Hj; apply at_time_scanned; assumption).
  assert (Hh : hit c (scanned k s0) = true).
  { unfold hit. rewrite Hday, Heve, Hnig by assumption.
    destruct (Z.eqb_spec (Z.of_nat k) dd); [reflexivity|].
    destruct (Z.eqb_spec (Z.of_nat k) de); [reflexivity|].
    destruct (Z.eqb_spec (Z.of_nat k) dn); [reflexivity|].
    subst k. lia. }
  assert (Hf : forall j, (j < k)%nat -> hit c (scanned j s0) = false).
  { intros j Hj. unfold hit. rewrite Hday, Heve, Hnig by lia.
    destruct (Z.eqb_spec (Z.of_nat j) dd); [subst k; lia|].
    destruct (Z.eqb_spec (Z.of_nat j) de); [subst k; lia|].
    destruct (Z.eqb_spec (Z.of_nat j) dn); [subst k; lia|].
    reflexivity. }
  exists (step_back (tests p c (scanned k s0))).
  split.
  { unfold set_volume_to_current_time. fold s0.
    apply scan_loop_first_hit; auto. }
  destruct (step_back_keeps (tests p c (scanned k s0))) as [-> ->].
  rewrite (tests_period p c _ Hh), (tests_volume p c).
  rewrite Hday, Heve, Hnig by assumption.
  unfold NIGHT, EVENING, DAY.
  destruct (Z.eqb_spec (Z.of_nat k) dn) as [En|En];
    destruct (Z.eqb_spec (Z.of_nat k) de) as [Ee|Ee];
    destruct (Z.eqb_spec (Z.of_nat k) dd) as [Ed|Ed];
    destruct (Z.leb_spec dn dd); destruct (Z.leb_spec dn de);
    destruct (Z.leb_spec de dd); cbn [andb];
    try (exfalso; subst k; lia);
    destruct p; cbn [andb];
    repeat split; intros; try reflexivity; try discriminate; try lia.
Qed.

Lemma most_recent_trigger_wins_witness :
  let c := example_config 80 50 10 in
  let dd := minutes_since 20 15 (day_hour c) (day_minute c) in
  let de := minutes_since 20 15 (evening_hour c) (evening_minute c) in
  let dn := minutes_since 20 15 (night_hour c) (night_minute c) in
  exists r,
    set_volume_to_current_time MCMC c day_steps 20 15 0 = Some r /\
    match_time r =
      (if (dn <=? dd) && (dn <=? de) then NIGHT
       else if de <=? dd then EVENING else DAY) /\
    (match_time r = DAY -> volume r = day_volume c) /\
    (match_time r = EVENING -> volume r = evening_volume c) /\
    (match_time r = NIGHT -> MCMC = TBC -> volume r = night_volume c).
Proof.
  apply (most_recent_trigger_wins MCMC (example_config 80 50 10) 20 15 0);
    unfold valid_time; simpl; lia.
Defined.

Lemma invalid_entry_never_hit th tm s :
  valid_scan s -> ~ valid_time th tm -> at_time th tm s = false.
Proof.
  intros Hs Hinv. destruct (at_time th tm s) eqn:Hat; [|reflexivity].
  exfalso. apply Hinv. unfold at_time in Hat.
  apply andb_prop in Hat. destruct Hat as [H1 H2].
  apply Z.eqb_eq in H1. apply Z.eqb_eq in H2.
  unfold valid_scan in Hs. rewrite <- H1, <- H2. assumption.
Qed.

(** X2: when none of the three entries is a valid time of day (an erased
    store reads 255 everywhere) the scan finds no entry however long it
    runs: the while loop does not return for any bound on its steps. *)
Theorem scan_hangs_without_valid_entry :
  forall (p : program) (c : config) (h m vol : Z),
    valid_time h m ->
    ~ valid_time (day_hour c) (day_minute c) ->
    ~ valid_time (evening_hour c) (evening_minute c) ->
    ~ valid_time (night_hour c) (night_minute c) ->
    forall fuel, set_volume_to_current_time p c fuel h m vol = None.
Proof.
  intros p c h m vol Hnow Hd He Hn fuel.
  unfold set_volume_to_current_time.
  apply scan_loop_no_hit; [reflexivity|].
  intros j _.
  destruct (scanned_minute j (mkScan h m vol 0) Hnow) as [Hv _].
  unfold hit, hit_day, hit_evening, hit_night.
  rewrite !invalid_entry_never_hit by assumption. reflexivity.
Qed.

Lemma scan_hangs_without_valid_entry_witness :
  set_volume_to_current_time MCMC
    (setup_config MCMC (fun _ => 255)) (7 * day_steps) 12 0 0 = None.
Proof.
  apply (scan_hangs_without_valid_entry MCMC
           (setup_config MCMC (fun _ => 255)) 12 0 0);
    unfold valid_time, setup_config, EEPROM_read; simpl; lia.
Defined.

(** ** The knob *)

Lemma wrap32_small z :
  -2147483648 <= z <= 2147483647 -> Int.wrap32 z = z.
Proof.
  intros H. unfold Int.wrap32. rewrite Z.mod_small by lia. lia.
Qed.

Lemma knob_value x lo hi :
  poti_range x -> 0 <= lo <= hi -> hi <= 2000 ->
  knob x lo hi = lo + (1023 - x) * (hi - lo) / 1023.
Proof.
  unfold poti_range. intros Hx Hlo Hhi. unfold knob, Int.map.
  assert (Ha : 0 <= (1023 - x) * (hi - lo) <= 1023 * 2000) by nia.
  rewrite (wrap32_small (x - 1023)) by lia.
  rewrite (wrap32_small (hi - lo)) by lia.
  rewrite (wrap32_small (0 - 1023)) by lia.
  replace ((x - 1023) * (hi - lo)) with (- ((1023 - x) * (hi - lo))) by ring.
  rewrite (wrap32_small (- _)) by lia.
  change (0 - 1023) with (- (1023)).
  rewrite Z.quot_opp_opp by lia.
  rewrite Z.quot_div_nonneg by lia.
  assert (Hq : 0 <= (1023 - x) * (hi - lo) / 1023 <= hi - lo).
  { split; [apply Z.div_pos; lia|].
    apply Z.div_le_upper_bound; nia. }
  rewrite wrap32_small by lia.
  rewrite wrap16_small by (unfold Int.in16; lia). lia.
Qed.

(** X3: a setting read from the knob lies in its range [lo..hi]: [lo] at
    the reading 1023, [hi] at the reading 0 and at no other reading, and
    never larger for a larger reading.  This holds for the hours 0..23,
    the minutes 0..59, the volumes 0..100, the threshold 100..2000 and
    the delay 1..999. *)
Theorem knob_in_range :
  forall (x lo hi : Z),
    poti_range x -> 0 <= lo <= hi -> hi <= 2000 ->
    lo <= knob x lo hi <= hi /\
    knob 1023 lo hi = lo /\
    knob 0 lo hi = hi /\
    (lo < hi -> (knob x lo hi = hi <-> x = 0)) /\
    (forall y, poti_range y -> x <= y -> knob y lo hi <= knob x lo hi).
Proof.
  intros x lo hi Hx Hlo Hhi.
  assert (H1023 : poti_range 1023) by (unfold poti_range; lia).
  assert (H0 : poti_range 0) by (unfold poti_range; lia).
  rewrite (knob_value x), (knob_value 1023), (knob_value 0) by assumption.
  unfold poti_range in Hx.
  assert (Ha : 0 <= (1023 - x) * (hi - lo) <= 1023 * (hi - lo)) by nia.
  assert (Hq : 0 <= (1023 - x) * (hi - lo) / 1023 <= hi - lo).
  { split; [apply Z.div_pos; lia|].
    apply Z.div_le_upper_bound; lia. }
  split; [lia|].
  split; [replace (1023 - 1023) with 0 by lia; rewrite Z.mul_0_l, Z.div_0_l by lia; lia|].
  split.
  { replace ((1023 - 0) * (hi - lo)) with ((hi - lo) * 1023) by ring.
    rewrite Z.div_mul by lia. lia. }
  split.
  - intros Hlt. split.
    + intros E.
      assert (Hge : hi - lo <= (1023 - x) * (hi - lo) / 1023) by lia.
      assert (Hmul : 1023 * (hi - lo) <= (1023 - x) * (hi - lo)).
      { pose proof (Z.mul_div_le ((1023 - x) * (hi - lo)) 1023 ltac:(lia)).
        nia. }
      nia.
    + intros ->.
      replace ((1023 - 0) * (hi - lo)) with ((hi - lo) * 1023) by ring.
      rewrite Z.div_mul by lia. lia.
  - intros y Hy Hxy. rewrite (knob_value y) by assumption.
    unfold poti_range in Hy.
    apply Z.add_le_mono_l. apply Z.div_le_mono; [lia|]. nia.
Qed.

Lemma knob_in_range_witness :
  100 <= knob 512 100 2000 <= 2000 /\
  knob 1023 100 2000 = 100 /\
  knob 0 100 2000 = 2000 /\
  (100 < 2000 -> (knob 512 100 2000 = 2000 <-> 512 = 0)) /\
  (forall y, poti_range y -> 512 <= y -> knob y 100 2000 <= knob 512 100 2000).
Proof.
  apply (knob_in_range 512 100 2000); unfold poti_range; lia.
Defined.

Lemma select_state_value x :
  poti_range x -> select_state x = 6 - 5 * x / 1023.
Proof.
  unfold poti_range. intros Hx. unfold select_state, Int.map.
  rewrite (wrap32_small (x - 0)) by lia.
  rewrite (wrap32_small (1 - 6)) by lia.
  rewrite (wrap32_small (1023 - 0)) by lia.
  replace ((x - 0) * (1 - 6)) with (- (5 * x)) by ring.
  rewrite (wrap32_small (- _)) by lia.
  change (1023 - 0) with 1023.
  rewrite Z.quot_opp_l by lia.
  rewrite Z.quot_div_nonneg by lia.
  assert (Hq : 0 <= 5 * x / 1023 <= 5).
  { split; [apply Z.div_pos; lia|].
    apply Z.div_le_upper_bound; lia. }
  rewrite wrap32_small by lia.
  rewrite wrap16_small by (unfold Int.in16; lia). lia.
Qed.

(** X4: whatever the knob reads, [loop] selects one of the states 1..6
    and the switch has a case for it.  State 1, the display of time and
    volume, is selected at the reading 1023 only; state 6 at the readings
    up to 204. *)
Theorem state_selection :
  forall (p : program) (x : Z),
    poti_range x ->
    1 <= select_state x <= 6 /\
    dispatch p (select_state x) <> None /\
    (dispatch p (select_state x) = Some display_time_and_volume
       <-> x = 1023) /\
    (select_state x = 6 <-> x <= 204).
Proof.
  intros p x Hx. rewrite (select_state_value x Hx).
  unfold poti_range in Hx.
  assert (Hq : 0 <= 5 * x / 1023 <= 5).
  { split; [apply Z.div_pos; lia|].
    apply Z.div_le_upper_bound; lia. }
  assert (H5 : 5 * x / 1023 = 5 <-> x = 1023).
  { split; intros E; [|subst x; reflexivity].
    pose proof (Z.mul_div_le (5 * x) 1023 ltac:(lia)). lia. }
  assert (H0 : 5 * x / 1023 = 0 <-> x <= 204).
  { split; intros E.
    - pose proof (Z.mod_pos_bound (5 * x) 1023 ltac:(lia)).
      pose proof (Z.div_mod (5 * x) 1023 ltac:(lia)). lia.
    - apply Z.div_small. lia. }
  set (q := 5 * x / 1023) in *.
  split; [lia|].
  assert (Hcases : q = 0 \/ q = 1 \/ q = 2 \/ q = 3 \/ q = 4 \/ q = 5) by lia.
  split; [|split].
  - destruct Hcases as [E|[E|[E|[E|[E|E]]]]]; rewrite E;
      destruct p; simpl; discriminate.
  - destruct Hcases as [E|[E|[E|[E|[E|E]]]]]; rewrite E;
      destruct p; simpl; split; intros H;
      try reflexivity; try discriminate H; lia.
  - lia.
Qed.

Lemma state_selection_witness :
  1 <= select_state 1023 <= 6 /\
  dispatch MCMC (select_state 1023) <> None /\
  (dispatch MCMC (select_state 1023) = Some display_time_and_volume
     <-> 1023 = 1023) /\
  (select_state 1023 = 6 <-> 1023 <= 204).
Proof.
  apply (state_selection MCMC 1023). unfold poti_range. lia.
Defined.

Lemma knob_bounds x lo hi :
  poti_range x -> 0 <= lo <= hi -> hi <= 2000 -> lo <= knob x lo hi <= hi.
Proof.
  intros Hx Hlo Hhi. rewrite knob_value by assumption.
  unfold poti_range in Hx.
  assert (Hq : 0 <= (1023 - x) * (hi - lo) / 1023 <= hi - lo).
  { split; [apply Z.div_pos; nia|].
    apply Z.div_le_upper_bound; nia. }
  lia.
Qed.

Lemma edit_bounds lo hi readings :
  0 <= lo <= hi -> hi <= 2000 ->
  Forall poti_range readings ->
  forall old,
    readings <> [] \/ lo <= old <= hi ->
    lo <= edit lo hi readings old <= hi.
Proof.
  intros Hlo Hhi Hall. induction Hall as [|x r Hx Hr IH]; intros old Hold.
  - destruct Hold as [Hne|Hold]; [contradiction|exact Hold].
  - cbn [edit]. apply IH. right. apply knob_bounds; assumption.
Qed.

(** Within a day the scan returns as soon as one entry is valid. *)
Lemma scan_returns_within_day p c h m vol :
  valid_time h m ->
  valid_time (day_hour c) (day_minute c) \/
  valid_time (evening_hour c) (evening_minute c) \/
  valid_time (night_hour c) (night_minute c) ->
  exists k,
    (k < day_steps)%nat /\
    hit c (scanned k (mkScan h m vol 0)) = true /\
    set_volume_to_current_time p c day_steps h m vol
      = Some (step_back (tests p c (scanned k (mkScan h m vol 0)))).
Proof.
  intros Hnow Hcfg.
  set (s := mkScan h m vol 0).
  assert (Hs : valid_scan s) by exact Hnow.
  destruct (at_least_one_hit c s Hs Hcfg) as [k0 [Hk0 Hhit0]].
  destruct (first_hit_dec c day_steps s) as [[k [Hk [Hh Hf]]]|Hno].
  - exists k. split; [assumption|]. split; [assumption|].
    unfold set_volume_to_current_time. fold s.
    apply scan_loop_first_hit; auto.
  - rewrite (Hno k0 Hk0) in Hhit0. discriminate.
Qed.

(** X5: trigger times chosen with the knob are valid times of day, are
    read back unchanged by [setup] after a reset, and the scan then
    returns at every valid time of day. *)
Theorem trigger_times_set_by_knob :
  forall (p : program) (dh dm eh em nh nm : list Z) (c : config) (e : eeprom),
    Forall poti_range dh -> Forall poti_range dm ->
    Forall poti_range eh -> Forall poti_range em ->
    Forall poti_range nh -> Forall poti_range nm ->
    dh <> [] -> dm <> [] -> eh <> [] -> em <> [] -> nh <> [] -> nm <> [] ->
    let c' := fst (set_trigger_times dh dm eh em nh nm c e) in
    let c'' := setup_config p (snd (set_trigger_times dh dm eh em nh nm c e)) in
    valid_time (day_hour c') (day_minute c') /\
    valid_time (evening_hour c') (evening_minute c') /\
    valid_time (night_hour c') (night_minute c') /\
    day_hour c'' = day_hour c' /\ day_minute c'' = day_minute c' /\
    evening_hour c'' = evening_hour c' /\
    evening_minute c'' = evening_minute c' /\
    night_hour c'' = night_hour c' /\ night_minute c'' = night_minute c' /\
    forall h m vol,
      valid_time h m ->
      exists r, set_volume_to_current_time p c'' day_steps h m vol = Some r.
Proof.
  intros p dh dm eh em nh nm c e Fdh Fdm Feh Fem Fnh Fnm
         Ndh Ndm Neh Nem Nnh Nnm c' c''.
  assert (Hdh := edit_bounds 0 23 dh ltac:(lia) ltac:(lia) Fdh
                   (day_hour c) (or_introl Ndh)).
  assert (Hdm := edit_bounds 0 59 dm ltac:(lia) ltac:(lia) Fdm
                   (day_minute c) (or_introl Ndm)).
  assert (Heh := edit_bounds 0 23 eh ltac:(lia) ltac:(lia) Feh
                   (evening_hour c) (or_introl Neh)).
  assert (Hem := edit_bounds 0 59 em ltac:(lia) ltac:(lia) Fem
                   (evening_minute c) (or_introl Nem)).
  assert (Hnh := edit_bounds 0 23 nh ltac:(lia) ltac:(lia) Fnh
                   (night_hour c) (or_introl Nnh)).
  assert (Hnm := edit_bounds 0 59 nm ltac:(lia) ltac:(lia) Fnm
                   (night_minute c) (or_introl Nnm)).
  assert (Vd : valid_time (day_hour c') (day_minute c')) by (split; assumption).
  assert (Ve : valid_time (evening_hour c') (evening_minute c'))
    by (split; assumption).
  assert (Vn : valid_time (night_hour c') (night_minute c'))
    by (split; assumption).
  pose proof (trigger_times_round_trip p c' e Vd Ve Vn) as Hrt.
  cbv zeta in Hrt.
  change (setup_config p (save_trigger_times c' e)) with c'' in Hrt.
  destruct Hrt as (R1 & R2 & R3 & R4 & R5 & R6).
  repeat (split; [assumption|]).
  intros h m vol Hnow.
  destruct (scan_returns_within_day p c'' h m vol Hnow) as [k [_ [_ Hr]]].
  - left. rewrite R1, R2. assumption.
  - eexists. exact Hr.
Qed.

Lemma trigger_times_set_by_knob_witness :
  let c := setup_config MCMC (fun _ => 255) in
  let e := fun _ : Z => 255 in
  let c' := fst (set_trigger_times [700] [1023] [300] [500] [0] [1000] c e) in
  let c'' := setup_config MCMC
               (snd (set_trigger_times [700] [1023] [300] [500] [0] [1000] c e)) in
  valid_time (day_hour c') (day_minute c') /\
  valid_time (evening_hour c') (evening_minute c') /\
  valid_time (night_hour c') (night_minute c') /\
  day_hour c'' = day_hour c' /\ day_minute c'' = day_minute c' /\
  evening_hour c'' = evening_hour c' /\
  evening_minute c'' = evening_minute c' /\
  night_hour c'' = night_hour c' /\ night_minute c'' = night_minute c' /\
  forall h m vol,
    valid_time h m ->
    exists r, set_volume_to_current_time MCMC c'' day_steps h m vol = Some r.
Proof.
  apply (trigger_times_set_by_knob MCMC [700] [1023] [300] [500] [0] [1000]
           (setup_config MCMC (fun _ => 255)) (fun _ => 255));
    try discriminate;
    repeat constructor; unfold poti_range; lia.
Defined.

(** X6: the hour and the minute that [set_time] gives to the clock are a
    valid time of day. *)
Theorem set_time_valid :
  forall (hours minutes : list Z) (rtc_hour rtc_minute : Z),
    Forall poti_range hours -> Forall poti_range minutes ->
    hours <> [] \/ 0 <= rtc_hour <= 23 ->
    minutes <> [] \/ 0 <= rtc_minute <= 59 ->
    valid_time (fst (set_time hours minutes rtc_hour rtc_minute))
               (snd (set_time hours minutes rtc_hour rtc_minute)).
Proof.
  intros hours minutes rh rm Fh Fm Hh Hm. unfold set_time, valid_time.
  cbn [fst snd]. split; apply edit_bounds; auto; lia.
Qed.

Lemma set_time_valid_witness :
  valid_time (fst (set_time [] [1023; 512] 0 0))
             (snd (set_time [] [1023; 512] 0 0)).
Proof.
  apply (set_time_valid [] [1023; 512] 0 0).
  - constructor.
  - repeat constructor; unfold poti_range; lia.
  - right. lia.
  - left. discriminate.
Defined.

Lemma fold_left_step (A B : Type) (f : A -> B -> A) x r a :
  fold_left f (x :: r) a = fold_left f r (f a x).
Proof. reflexivity. Qed.

Lemma edit_volume_cons x r vs :
  edit_volume (x :: r) vs = edit_volume r (volume_pass x vs).
Proof. unfold edit_volume. apply fold_left_step. Qed.

Lemma last_cons_default (l : list Z) :
  forall a d, last (a :: l) d = last l a.
Proof.
  induction l as [|b l IH]; intros a d; [reflexivity|].
  change (last (a :: b :: l) d) with (last (b :: l) d).
  rewrite (IH b d). symmetry. apply IH.
Qed.

Lemma volume_pass_follows x vs :
  poti_range x -> -32768 < servo_pos (snd vs) < 32767 ->
  fst (volume_pass x vs) = knob x 0 100 /\
  0 <= fst (volume_pass x vs) <= 100 /\
  servo_pos (snd (volume_pass x vs)) = fst (volume_pass x vs).
Proof.
  intros Hx Hs. unfold volume_pass. cbv zeta. cbn [fst snd].
  pose proof (knob_bounds x 0 100 Hx ltac:(lia) ltac:(lia)) as Hk.
  split; [reflexivity|]. split; [exact Hk|].
  rewrite smooth_servo_pos by assumption.
  destruct (Z.eqb_spec (knob x 0 100) (servo_pos (snd vs))) as [E|E];
    [symmetry; exact E|reflexivity].
Qed.

Lemma edit_volume_inv readings :
  Forall poti_range readings ->
  forall vs x0,
    fst vs = knob x0 0 100 -> 0 <= fst vs <= 100 ->
    servo_pos (snd vs) = fst vs ->
    fst (edit_volume readings vs) = knob (last readings x0) 0 100 /\
    0 <= fst (edit_volume readings vs) <= 100 /\
    servo_pos (snd (edit_volume readings vs)) = fst (edit_volume readings vs).
Proof.
  intros Hall. induction Hall as [|x r Hx Hr IH]; intros vs x0 Hv0 Hv Hs.
  - unfold edit_volume, fold_left, last. auto.
  - rewrite edit_volume_cons, last_cons_default.
    destruct (volume_pass_follows x vs Hx ltac:(lia)) as (P1 & P2 & P3).
    apply IH; assumption.
Qed.

Lemma edit_volume_follows readings :
  Forall poti_range readings ->
  forall v s,
    -32768 < servo_pos s < 32767 ->
    readings <> [] ->
    fst (edit_volume readings (v, s)) = knob (last readings 0) 0 100 /\
    0 <= fst (edit_volume readings (v, s)) <= 100 /\
    servo_pos (snd (edit_volume readings (v, s)))
      = fst (edit_volume readings (v, s)).
Proof.
  intros Hall v s Hs Hne.
  destruct Hall as [|x r Hx Hr]; [contradiction|].
  rewrite edit_volume_cons, last_cons_default.
  destruct (volume_pass_follows x (v, s) Hx Hs) as (P1 & P2 & P3).
  apply (edit_volume_inv r Hr); assumption.
Qed.

(** X7: a day or evening volume chosen with the knob lies in 0..100, is
    the setting of the last reading, is where the servo stands when the
    editing loop is left, and is read back unchanged by [setup] after a
    reset. *)
Theorem volume_set_by_knob :
  forall (p : program) (readings : list Z) (c : config) (s : servo)
         (e : eeprom),
    Forall poti_range readings -> readings <> [] ->
    0 <= servo_pos s <= 100 ->
    let v := knob (last readings 0) 0 100 in
    let '(cd, sd, ed) := set_volume_day readings c s e in
    let '(ce, se, ee) := set_volume_evening readings c s e in
    0 <= v <= 100 /\
    day_volume cd = v /\ servo_pos sd = v /\
    day_volume (setup_config p ed) = v /\
    evening_volume ce = v /\ servo_pos se = v /\
    evening_volume (setup_config p ee) = v.
Proof.
  intros p readings c s e Hall Hne Hs v.
  unfold set_volume_day, set_volume_evening.
  destruct (edit_volume_follows readings Hall (day_volume c) s
              ltac:(lia) Hne) as (D1 & D2 & D3).
  destruct (edit_volume_follows readings Hall (evening_volume c) s
              ltac:(lia) Hne) as (E1 & E2 & E3).
  destruct (edit_volume readings (day_volume c, s)) as [vd sd].
  destruct (edit_volume readings (evening_volume c, s)) as [ve se].
  cbn [fst snd] in *. fold v in D1, E1. subst vd ve.
  cbn [day_volume evening_volume].
  assert (Hd : day_volume (setup_config p (EEPROM_write DAY_VOLUME v e)) = v).
  { destruct p; cbn [setup_config day_volume];
      apply byte_round_trip; lia. }
  assert (He : evening_volume
                 (setup_config p (EEPROM_write EVENING_VOLUME v e)) = v).
  { destruct p; cbn [setup_config evening_volume];
      apply byte_round_trip; lia. }
  repeat split; auto; lia.
Qed.

Lemma volume_set_by_knob_witness :
  let v := knob (last [1000; 300] 0) 0 100 in
  let '(cd, sd, ed) :=
    set_volume_day [1000; 300] (example_config 80 50 10) servo_boot
                   (fun _ => 255) in
  let '(ce, se, ee) :=
    set_volume_evening [1000; 300] (example_config 80 50 10) servo_boot
                       (fun _ => 255) in
  0 <= v <= 100 /\
  day_volume cd = v /\ servo_pos sd = v /\
  day_volume (setup_config TBC ed) = v /\
  evening_volume ce = v /\ servo_pos se = v /\
  evening_volume (setup_config TBC ee) = v.
Proof.
  apply (volume_set_by_knob TBC [1000; 300] (example_config 80 50 10)
           servo_boot (fun _ => 255)).
  - repeat constructor; unfold poti_range; lia.
  - discriminate.
  - simpl. lia.
Defined.

(** X8: the cells of the store do not overlap within a sketch: saving
    the crank settings leaves the schedule as [setup] reads it, saving
    the trigger times leaves the volumes and the crank settings, and
    saving a volume leaves everything else. *)
Theorem saves_do_not_interfere :
  forall (p : program) (e : eeprom),
    (forall x y k,
        setup_config MCMC (snd (set_crank_speed x y k e)) = setup_config MCMC e) /\
    (forall dh dm eh em nh nm c,
        let e' := snd (set_trigger_times dh dm eh em nh nm c e) in
        setup_crank e' = setup_crank e /\
        day_volume (setup_config p e') = day_volume (setup_config p e) /\
        evening_volume (setup_config p e') = evening_volume (setup_config p e) /\
        night_volume (setup_config p e') = night_volume (setup_config p e)) /\
    (forall readings c s,
        let e' := snd (set_volume_day readings c s e) in
        let c0 := setup_config p e in
        setup_crank e' = setup_crank e /\
        setup_config p e' =
          mkConfig (day_hour c0) (day_minute c0)
                   (day_volume (setup_config p e'))
                   (evening_hour c0) (evening_minute c0) (evening_volume c0)
                   (night_hour c0) (night_minute c0) (night_volume c0)).
Proof.
  intros p e. split; [|split].
  - intros x y k. reflexivity.
  - intros dh dm eh em nh nm c. cbv zeta.
    repeat split; destruct p; reflexivity.
  - intros readings c s. cbv zeta. unfold set_volume_day.
    destruct (edit_volume readings (day_volume c, s)) as [v s'].
    split; [reflexivity|]. destruct p; reflexivity.
Qed.

(** ** Servo smoothing, any sequence of calls *)

Lemma smooth_servo_fields a d pd ds pos t att pu :
  -32768 < pos < 32767 ->
  smooth_servo d a (mkServo pd ds pos t att pu) =
    let t0 := if d =? pd then t else 0 in
    let att0 := if d =? pd then att else true in
    let pos' := if d =? pos then pos
                else if a =? 1 then d
                else if d >? pos then pos + 1 else pos - 1 in
    let t1 := if d =? pos then t0
              else if d =? pos' then Int.incr t0 else t0 in
    let t2 := if (d =? pos') && (t1 <? 51) then Int.incr t1 else t1 in
    mkServo d d pos' t2 (if t2 =? 50 then false else att0)
            (if d =? pos then pu else pulse_of pos').
Proof.
  intros Hpos. destruct (Z.eqb_spec d pd) as [->|Hne].
  - apply smooth_servo_same. assumption.
  - rewrite smooth_servo_new by assumption.
    apply smooth_servo_same. assumption.
Qed.

Lemma servo_ok_step d a s :
  0 <= d <= 100 -> servo_ok s -> servo_ok (smooth_servo d a s).
Proof.
  intros Hd. destruct s as [pd ds pos t att pu]. unfold servo_ok.
  cbn [servo_pos detach_timeout p_desired_servo_pos attached].
  intros (Hp & Ht & Hrest & Hdet).
  rewrite smooth_servo_fields by lia. cbv zeta.
  cbn [servo_pos detach_timeout p_desired_servo_pos attached].
  destruct (Z.eqb_spec d pos) as [Epos|Epos].
  - (* at rest on the target *)
    rewrite Epos, Z.eqb_refl. cbn [andb].
    destruct (Z.eqb_spec pos pd) as [Epd|Epd].
    + destruct (Z.ltb_spec t 51).
      * rewrite incr_small by lia.
        destruct (Z.eqb_spec (t + 1) 50); repeat split; try lia.
        intros H50. apply Hdet. lia.
      * destruct (Z.eqb_spec t 50); repeat split; try lia.
        intros H50. apply Hdet. lia.
    + cbn. repeat split; lia.
  - (* on the way: the counter is 0 *)
    assert (Ht0 : (if d =? pd then t else 0) = 0).
    { destruct (Z.eqb_spec d pd); [|reflexivity]. subst pd.
      destruct (Z_le_gt_dec 1 t); [|lia]. specialize (Hrest l). lia. }
    rewrite Ht0.
    set (pos' := if a =? 1 then d
                 else if d >? pos then pos + 1 else pos - 1).
    assert (Hp' : 0 <= pos' <= 100).
    { subst pos'. destruct (a =? 1); [lia|].
      destruct (Z.gtb_spec d pos); lia. }
    destruct (Z.eqb_spec d pos') as [E|E].
    + rewrite incr_small by lia. cbn. repeat split; lia.
    + cbn. repeat split; lia.
Qed.

(** X9: from the state at reset and for any sequence of calls with
    targets in 0..100, in either mode: the position stays in 0..100, the
    detach counter in 0..51, the counter is above 0 only while the
    position is on the target of the last call, and the servo is
    detached whenever the counter is 50 or more. *)
Theorem servo_invariant :
  forall (calls : list (Z * Z)),
    Forall (fun call => 0 <= fst call <= 100) calls ->
    servo_ok (servo_calls calls servo_boot).
Proof.
  intros calls Hall.
  assert (Hgen : forall s, servo_ok s -> servo_ok (servo_calls calls s)).
  { induction Hall as [|[d a] r Hd Hr IH]; intros s Hs.
    - exact Hs.
    - cbn [servo_calls]. apply IH. apply servo_ok_step; assumption. }
  apply Hgen. unfold servo_ok, servo_boot. cbn. repeat split; try lia.
Qed.

Lemma servo_invariant_witness :
  servo_ok (servo_calls [(80, 0); (80, 0); (30, 1); (0, 0)] servo_boot).
Proof.
  apply (servo_invariant [(80, 0); (80, 0); (30, 1); (0, 0)]).
  repeat constructor; simpl; lia.
Defined.

Lemma pulse_of_value pos :
  0 <= pos <= 100 -> pulse_of pos = 170 - 142 * pos / 100.
Proof.
  intros Hp. unfold pulse_of, Int.map.
  rewrite (wrap32_small (pos - 0)) by lia.
  rewrite (wrap32_small (28 - 170)) by lia.
  rewrite (wrap32_small (100 - 0)) by lia.
  replace ((pos - 0) * (28 - 170)) with (- (142 * pos)) by ring.
  rewrite (wrap32_small (- _)) by lia.
  change (100 - 0) with 100.
  rewrite Z.quot_opp_l by lia.
  rewrite Z.quot_div_nonneg by lia.
  assert (Hq : 0 <= 142 * pos / 100 <= 142).
  { split; [apply Z.div_pos; lia|].
    apply Z.div_le_upper_bound; lia. }
  rewrite wrap32_small by lia.
  rewrite wrap16_small by (unfold Int.in16; lia). lia.
Qed.

(** X10: a call that moves the servo writes the pulse of the new
    position; a call that finds the position on the target writes
    nothing.  The pulse is 170 for position 0 and 28 for position 100,
    stays between the two, and is strictly smaller for a larger
    position, so that every step of the position changes the pulse. *)
Theorem pulse_is_inverted :
  forall (s : servo) (d a : Z),
    0 <= servo_pos s <= 100 -> 0 <= d <= 100 ->
    (d <> servo_pos s ->
       pulse (smooth_servo d a s) = pulse_of (servo_pos (smooth_servo d a s))) /\
    (d = servo_pos s -> pulse (smooth_servo d a s) = pulse s) /\
    pulse_of 0 = 170 /\ pulse_of 100 = 28 /\
    28 <= pulse_of d <= 170 /\
    (servo_pos s < d -> pulse_of d < pulse_of (servo_pos s)).
Proof.
  intros s d a Hp Hd.
  destruct s as [pd ds pos t att pu]. cbn [servo_pos pulse] in *.
  rewrite smooth_servo_fields by lia. cbv zeta. cbn [servo_pos pulse].
  split; [|split].
  - intros Hne. destruct (Z.eqb_spec d pos); [contradiction|reflexivity].
  - intros He. destruct (Z.eqb_spec d pos); [reflexivity|contradiction].
  - rewrite (pulse_of_value 0), (pulse_of_value 100), (pulse_of_value d),
      (pulse_of_value pos) by lia.
    assert (Hq : 0 <= 142 * d / 100 <= 142).
    { split; [apply Z.div_pos; lia|].
      apply Z.div_le_upper_bound; lia. }
    split; [reflexivity|]. split; [reflexivity|]. split; [lia|].
    intros Hlt.
    assert (142 * pos / 100 < 142 * d / 100); [|lia].
    pose proof (Z.div_mod (142 * pos) 100 ltac:(lia)).
    pose proof (Z.mod_pos_bound (142 * pos) 100 ltac:(lia)).
    pose proof (Z.div_mod (142 * d) 100 ltac:(lia)).
    pose proof (Z.mod_pos_bound (142 * d) 100 ltac:(lia)).
    lia.
Qed.

Lemma pulse_is_inverted_witness :
  let s := mkServo 40 40 40 51 false 114 in
  (41 <> servo_pos s ->
     pulse (smooth_servo 41 0 s) = pulse_of (servo_pos (smooth_servo 41 0 s))) /\
  (41 = servo_pos s -> pulse (smooth_servo 41 0 s) = pulse s) /\
  pulse_of 0 = 170 /\ pulse_of 100 = 28 /\
  28 <= pulse_of 41 <= 170 /\
  (servo_pos s < 41 -> pulse_of 41 < pulse_of (servo_pos s)).
Proof.
  apply (pulse_is_inverted (mkServo 40 40 40 51 false 114) 41 0); simpl; lia.
Defined.

Lemma attached_only_released d a s :
  d = p_desired_servo_pos s ->
  attached s = false ->
  attached (smooth_servo d a s) = false /\
  p_desired_servo_pos (smooth_servo d a s) = d.
Proof.
  intros Hd Hatt.
  assert (Hrel : forall x, attached x = false -> attached (release x) = false).
  { intros x Hx. unfold release. destruct (_ =? _); [reflexivity|exact Hx]. }
  assert (Hrelp : forall x, p_desired_servo_pos (release x) = p_desired_servo_pos x).
  { intros x. unfold release. destruct (_ =? _); reflexivity. }
  assert (Hidle : forall x, attached (idle_count x) = attached x /\
                  p_desired_servo_pos (idle_count x) = p_desired_servo_pos x).
  { intros x. unfold idle_count. destruct (_ && _); split; reflexivity. }
  assert (Hup : forall x, attached (step_up x) = attached x /\
                  p_desired_servo_pos (step_up x) = p_desired_servo_pos x).
  { intros x. unfold step_up. destruct (_ >? _); split; reflexivity. }
  assert (Hdn : forall x, attached (step_down x) = attached x /\
                  p_desired_servo_pos (step_down x) = p_desired_servo_pos x).
  { intros x. unfold step_down. destruct (_ <? _); split; reflexivity. }
  assert (Hsn : forall x, attached (snap a x) = attached x /\
                  p_desired_servo_pos (snap a x) = p_desired_servo_pos x).
  { intros x. unfold snap. destruct (_ =? _); split; reflexivity. }
  assert (Har : forall x, attached (count_arrival x) = attached x /\
                  p_desired_servo_pos (count_arrival x) = p_desired_servo_pos x).
  { intros x. unfold count_arrival. destruct (_ =? _); split; reflexivity. }
  assert (Hmv : forall x, attached (move a x) = attached x /\
                  p_desired_servo_pos (move a x) = p_desired_servo_pos x).
  { intros x. unfold move. destruct (negb _); [|split; reflexivity].
    unfold write_servo. cbn [attached p_desired_servo_pos set_pulse].
    destruct (Har (snap a (step_down (step_up x)))) as [-> ->].
    destruct (Hsn (step_down (step_up x))) as [-> ->].
    destruct (Hdn (step_up x)) as [-> ->].
    destruct (Hup x) as [-> ->]. split; reflexivity. }
  assert (Hrt : retarget (set_desired d s) = set_desired d s).
  { unfold retarget, set_desired.
    cbn [desired_servo_pos p_desired_servo_pos].
    rewrite Hd, Z.eqb_refl. reflexivity. }
  unfold smooth_servo. rewrite Hrt. split.
  - apply Hrel. destruct (Hidle (move a (set_desired d s))) as [-> _].
    destruct (Hmv (set_desired d s)) as [-> _]. exact Hatt.
  - rewrite Hrelp. destruct (Hidle (move a (set_desired d s))) as [_ ->].
    destruct (Hmv (set_desired d s)) as [_ ->]. symmetry. exact Hd.
Qed.

(** X11: the servo is attached by a change of target only: while the
    target is the one of the call before, a detached servo stays
    detached, whatever its position and in either mode.  After a reset a
    scheduled volume of 0 therefore never attaches it. *)
Theorem no_attach_without_new_target :
  forall (s : servo) (d a : Z) (k : nat),
    d = p_desired_servo_pos s ->
    attached s = false ->
    attached (run_servo d a k s) = false.
Proof.
  intros s d a k Hd Hatt.
  assert (H : attached (run_servo d a k s) = false /\
              p_desired_servo_pos (run_servo d a k s) = d).
  { unfold run_servo. induction k as [|k [IHa IHp]].
    - simpl. auto.
    - rewrite Nat.iter_succ. apply attached_only_released; auto. }
  apply H.
Qed.

Lemma no_attach_without_new_target_witness :
  attached (run_servo 0 0 1000 servo_boot) = false.
Proof.
  apply (no_attach_without_new_target servo_boot 0 0 1000); reflexivity.
Defined.

(** ** The governor, any sequence of samples *)

Lemma governor_step sw t k :
  governed k ->
  let r := measure_crank_speed sw t k in
  governed (fst r) /\
  off_delay (fst r) = off_delay k /\ rpm_thresh (fst r) = rpm_thresh k /\
  (snd r = [] \/ snd r = MECH_OFF :: countdown (Z.to_nat (off_delay k))).
Proof.
  intros Hg. cbv zeta. split; [apply governed_step; assumption|].
  destruct Hg as [Hn Hr].
  destruct sw.
  - rewrite no_edge by (auto; lia). destruct k; cbn. auto.
  - destruct Hr as [Hr|Hr].
    + fold LOW. rewrite rising_edge by assumption. rewrite lockout_fields.
      destruct (_ >=? 5); cbn; auto.
    + rewrite no_edge by (try right; lia). destruct k; cbn. auto.
Qed.

(** X12: from the state after [setup] and for any sequence of samples:
    between two evaluations the violation counter is in 0..4, the
    governor leaves the delay and the threshold as they were read, and
    all it ever outputs is the opening of the clutch and delays of one
    second; it never closes the clutch itself. *)
Theorem governor_invariant :
  forall (samples : list (bool * Z)) (e : eeprom),
    let k0 := setup_crank e in
    let r := governor_run samples k0 in
    governed (fst r) /\
    off_delay (fst r) = off_delay k0 /\ rpm_thresh (fst r) = rpm_thresh k0 /\
    Forall (fun ev => ev = MECH_OFF \/ ev = Delay 1000) (snd r).
Proof.
  intros samples e k0 r. subst r.
  assert (Hcd : forall n, Forall (fun ev => ev = MECH_OFF \/ ev = Delay 1000)
                                 (countdown n)).
  { induction n; cbn [countdown]; constructor; auto. }
  assert (Hgen : forall k, governed k ->
            governed (fst (governor_run samples k)) /\
            off_delay (fst (governor_run samples k)) = off_delay k /\
            rpm_thresh (fst (governor_run samples k)) = rpm_thresh k /\
            Forall (fun ev => ev = MECH_OFF \/ ev = Delay 1000)
                   (snd (governor_run samples k))).
  { induction samples as [|[sw t] rest IH]; intros k Hg.
    - cbn. auto.
    - cbn [governor_run].
      destruct (governor_step sw t k Hg) as (Hg1 & Hod & Hth & Htr).
      destruct (measure_crank_speed sw t k) as [k1 tr1]. cbn [fst snd] in *.
      destruct (IH k1 Hg1) as (Hg2 & Hod2 & Hth2 & Htr2).
      destruct (governor_run rest k1) as [k2 tr2]. cbn [fst snd] in *.
      split; [assumption|]. split; [congruence|]. split; [congruence|].
      apply Forall_app. split; [|assumption].
      destruct Htr as [->| ->]; [constructor|].
      constructor; [auto|apply Hcd]. }
  apply Hgen. apply governed_boot.
Qed.

Lemma turn_time t k :
  governed k ->
  crank_time (fst (turn t k)) = Int.wrap32 t /\
  ms_per_rotation (fst (turn t k)) = interval t k /\
  rpm_thresh (fst (turn t k)) = rpm_thresh k /\
  governed (fst (turn t k)).
Proof.
  intros Hg. rewrite turn_fields by assumption. rewrite lockout_fields.
  destruct Hg as [Hn Hr].
  destruct (too_fast t k);
    [destruct (Z.geb_spec (crank_speed_limit_count k + 1) 5)|];
    cbn; unfold governed; cbn; repeat split; lia.
Qed.

Lemma wrap32_difference T1 T2 :
  0 <= T1 <= T2 ->
  Int.wrap32 (Int.wrap32 (millis_at T2) - Int.wrap32 (millis_at T1)) =
    Int.wrap32 (T2 - T1).
Proof.
  intros H. unfold Int.wrap32, millis_at.
  Z.div_mod_to_equations. lia.
Qed.

(** X13: the duration of a turn is measured right across the wrap-around
    of the millisecond clock: for two successive turns sensed [T1] and
    [T2] milliseconds after the reset the measured duration is
    [T2 - T1], as long as this is less than 2^31. *)
Theorem interval_across_clock_wrap :
  forall (k : crank) (T1 T2 : Z),
    governed k ->
    0 <= T1 <= T2 -> T2 - T1 < 2147483648 ->
    let k1 := fst (turn (millis_at T1) k) in
    let k2 := fst (turn (millis_at T2) k1) in
    ms_per_rotation k2 = T2 - T1.
Proof.
  intros k T1 T2 Hg HT Hd k1 k2.
  destruct (turn_time (millis_at T1) k Hg) as (Hct & _ & _ & Hg1).
  fold k1 in Hct, Hg1.
  destruct (turn_time (millis_at T2) k1 Hg1) as (_ & Hms & _).
  fold k2 in Hms. rewrite Hms. unfold interval. rewrite Hct.
  rewrite wrap32_difference by assumption.
  apply wrap32_small. lia.
Qed.

Lemma interval_across_clock_wrap_witness :
  let k := setup_crank (fun _ => 200) in
  let k1 := fst (turn (millis_at 4294967000) k) in
  let k2 := fst (turn (millis_at 4294968200) k1) in
  ms_per_rotation k2 = 4294968200 - 4294967000.
Proof.
  apply (interval_across_clock_wrap (setup_crank (fun _ => 200))
           4294967000 4294968200).
  - apply governed_boot.
  - lia.
  - lia.
Defined.

(** X14: a turn that follows the one before by 2^31 milliseconds or more
    (about 24.9 days), and by less than 2^32, is given a negative
    duration and is therefore counted as too fast. *)
Theorem stale_turn_counts_as_fast :
  forall (k : crank) (T1 T2 : Z),
    governed k -> 0 <= rpm_thresh k ->
    0 <= T1 -> 2147483648 <= T2 - T1 < 4294967296 ->
    let k1 := fst (turn (millis_at T1) k) in
    let k2 := fst (turn (millis_at T2) k1) in
    ms_per_rotation k2 = T2 - T1 - 4294967296 /\
    too_fast (millis_at T2) k1 = true.
Proof.
  intros k T1 T2 Hg Hth HT Hd k1 k2.
  destruct (turn_time (millis_at T1) k Hg) as (Hct & _ & Hth1 & Hg1).
  fold k1 in Hct, Hth1, Hg1.
  destruct (turn_time (millis_at T2) k1 Hg1) as (_ & Hms & _).
  fold k2 in Hms.
  assert (Hi : interval (millis_at T2) k1 = T2 - T1 - 4294967296).
  { unfold interval. rewrite Hct.
    rewrite wrap32_difference by lia.
    unfold Int.wrap32. Z.div_mod_to_equations. lia. }
  split; [congruence|].
  unfold too_fast. rewrite Hi, Hth1. apply Z.ltb_lt. lia.
Qed.

Lemma stale_turn_counts_as_fast_witness :
  let k := setup_crank (fun _ => 200) in
  let k1 := fst (turn (millis_at 1000) k) in
  let k2 := fst (turn (millis_at 2147484648) k1) in
  ms_per_rotation k2 = 2147484648 - 1000 - 4294967296 /\
  too_fast (millis_at 2147484648) k1 = true.
Proof.
  apply (stale_turn_counts_as_fast (setup_crank (fun _ => 200))
           1000 2147484648).
  - apply governed_boot.
  - unfold setup_crank, EEPROM_read. simpl. lia.
  - lia.
  - lia.
Defined.

(** X15: the clutch is not opened by fewer turns than are missing to
    five violations: with the counter at [n], any [4 - n] turns or
    fewer, fast or not, output nothing. *)
Theorem no_lockout_before_five :
  forall (ts : list Z) (k : crank),
    governed k ->
    crank_speed_limit_count k + Z.of_nat (length ts) < 5 ->
    snd (turns ts k) = [] /\
    crank_speed_limit_count (fst (turns ts k))
      <= crank_speed_limit_count k + Z.of_nat (length ts).
Proof.
  induction ts as [|t r IH]; intros k Hg Hlen.
  - cbn. split; [reflexivity|lia].
  - cbn [length] in Hlen. cbn [turns].
    pose proof (turn_fields t k Hg) as Hturn.
    rewrite lockout_fields in Hturn.
    destruct Hg as [Hn Hr].
    assert (Hc : (if too_fast t k then crank_speed_limit_count k + 1 else 0) < 5)
      by (destruct (too_fast t k); lia).
    revert Hturn.
    destruct (Z.geb_spec
                (if too_fast t k then crank_speed_limit_count k + 1 else 0) 5)
      as [Hge|Hlt]; [lia|].
    intros Hturn. rewrite Hturn.
    match goal with |- context [turns r ?x] => set (k1 := x) in * end.
    assert (Hg1 : governed k1).
    { unfold governed, k1. cbn [crank_speed_limit_count rotation].
      destruct (too_fast t k); lia. }
    assert (Hc1 : crank_speed_limit_count k1 <= crank_speed_limit_count k + 1).
    { unfold k1. cbn [crank_speed_limit_count]. destruct (too_fast t k); lia. }
    destruct (IH k1 Hg1) as [Htr Hcnt]; [lia|].
    destruct (turns r k1) as [k2 tr2]. cbn [fst snd] in *.
    subst tr2. cbn [length]. split; [reflexivity|lia].
Qed.

Lemma no_lockout_before_five_witness :
  let k := setup_crank (fun _ => 200) in
  snd (turns [100; 150; 5000; 5100] k) = [] /\
  crank_speed_limit_count (fst (turns [100; 150; 5000; 5100] k))
    <= crank_speed_limit_count k + Z.of_nat (length [100; 150; 5000; 5100]).
Proof.
  apply (no_lockout_before_five [100; 150; 5000; 5100]
           (setup_crank (fun _ => 200))).
  - apply governed_boot.
  - simpl. lia.
Defined.

(** ** The end of [loop] *)

Lemma loop_tail_value c h m sw ms mach :
  valid_time h m ->
  valid_time (day_hour c) (day_minute c) \/
  valid_time (evening_hour c) (evening_minute c) \/
  valid_time (night_hour c) (night_minute c) ->
  exists r,
    set_volume_to_current_time MCMC c day_steps h m (m_volume mach) = Some r /\
    (match_time r = DAY \/ match_time r = EVENING \/ match_time r = NIGHT) /\
    loop_tail c day_steps h m sw ms mach =
      Some (mkMachine (volume r) (match_time r)
                      (smooth_servo (volume r) 0 (m_servo mach))
                      (fst (measure_crank_speed sw ms (m_crank mach))),
            auto_off_at_night (match_time r)
              ++ snd (measure_crank_speed sw ms (m_crank mach))).
Proof.
  intros Hnow Hcfg.
  destruct (scan_returns_within_day MCMC c h m (m_volume mach) Hnow Hcfg)
    as [k [Hk [Hh Hr]]].
  eexists. split; [exact Hr|]. split.
  - destruct (step_back_keeps
                (tests MCMC c (scanned k (mkScan h m (m_volume mach) 0))))
      as [_ ->].
    rewrite (tests_period MCMC c _ Hh).
    destruct (hit_night c _); [|destruct (hit_evening c _)]; auto.
  - unfold loop_tail. rewrite Hr.
    destruct (measure_crank_speed sw ms (m_crank mach)) as [kk tr2].
    reflexivity.
Qed.

(** X16: every pass through the end of [loop] that finds a valid time
    and a valid entry writes the clutch, the mixer and the light pins
    first, all three with one level: low when the period is Night, high
    otherwise; what follows in the pass is the output of the governor. *)
Theorem loop_writes_outputs_together :
  forall (c : config) (h m : Z) (sw : bool) (ms : Z) (mach : machine),
    valid_time h m ->
    valid_time (day_hour c) (day_minute c) \/
    valid_time (evening_hour c) (evening_minute c) \/
    valid_time (night_hour c) (night_minute c) ->
    exists mach',
      let b := negb (m_match_time mach' =? NIGHT) in
      loop_tail c day_steps h m sw ms mach =
        Some (mach',
              [DigitalWrite CLUTCH b; DigitalWrite MIXER b; DigitalWrite LIGHT b]
                ++ snd (measure_crank_speed sw ms (m_crank mach))) /\
      (m_match_time mach' = DAY \/ m_match_time mach' = EVENING \/
       m_match_time mach' = NIGHT) /\
      desired_servo_pos (m_servo mach') = m_volume mach'.
Proof.
  intros c h m sw ms mach Hnow Hcfg.
  destruct (loop_tail_value c h m sw ms mach Hnow Hcfg) as [r [_ [Hp Hl]]].
  exists (mkMachine (volume r) (match_time r)
                    (smooth_servo (volume r) 0 (m_servo mach))
                    (fst (measure_crank_speed sw ms (m_crank mach)))).
  cbv zeta. rewrite Hl. cbn [m_match_time m_servo m_volume].
  split; [|split; [exact Hp|apply smooth_servo_desired]].
  destruct Hp as [E|[E|E]]; rewrite E; reflexivity.
Qed.

Lemma loop_writes_outputs_together_witness :
  exists mach',
    let b := negb (m_match_time mach' =? NIGHT) in
    loop_tail (example_config 80 50 0) day_steps 12 0 HIGH 0
              (mkMachine 0 0 servo_boot (setup_crank (fun _ => 200))) =
      Some (mach',
            [DigitalWrite CLUTCH b; DigitalWrite MIXER b; DigitalWrite LIGHT b]
              ++ snd (measure_crank_speed HIGH 0 (setup_crank (fun _ => 200)))) /\
    (m_match_time mach' = DAY \/ m_match_time mach' = EVENING \/
     m_match_time mach' = NIGHT) /\
    desired_servo_pos (m_servo mach') = m_volume mach'.
Proof.
  apply (loop_writes_outputs_together (example_config 80 50 0) 12 0 HIGH 0
           (mkMachine 0 0 servo_boot (setup_crank (fun _ => 200)))).
  - unfold valid_time. lia.
  - left. unfold valid_time. simpl. lia.
Defined.




(** The scan position does not depend on the volume carried along. *)
Lemma scanned_position k h m v mt :
  scanned k (mkScan h m v mt) =
  mkScan (scan_hour (scanned k (mkScan h m 0 0)))
         (scan_minute (scanned k (mkScan h m 0 0))) v mt.
Proof.
  unfold scanned. induction k as [|k IH]; [reflexivity|].
  rewrite !Nat.iter_succ. rewrite IH.
  destruct (Nat.iter k step_back (mkScan h m 0 0)) as [a b v0 mt0].
  cbn [scan_hour scan_minute]. unfold step_back.
  cbn [scan_hour scan_minute volume match_time].
  destruct (b >? 0); [reflexivity|]. destruct (a >? 0); reflexivity.
Qed.

Lemma hits_position c k h m v :
  hit_day c (scanned k (mkScan h m v 0)) = hit_day c (scanned k (mkScan h m 0 0)) /\
  hit_evening c (scanned k (mkScan h m v 0))
    = hit_evening c (scanned k (mkScan h m 0 0)) /\
  hit_night c (scanned k (mkScan h m v 0))
    = hit_night c (scanned k (mkScan h m 0 0)).
Proof.
  rewrite (scanned_position k h m v 0).
  unfold hit_day, hit_evening, hit_night, at_time.
  cbn [scan_hour scan_minute]. auto.
Qed.

(** At a given time of day the scan maps the volume on entry to a volume
    that a second scan leaves as it is. *)
Lemma scan_volume_steady p c h m :
  valid_time h m ->
  valid_time (day_hour c) (day_minute c) \/
  valid_time (evening_hour c) (evening_minute c) \/
  valid_time (night_hour c) (night_minute c) ->
  exists (f : Z -> Z) (per : Z),
    (forall vol, exists r,
        set_volume_to_current_time p c day_steps h m vol = Some r /\
        volume r = f vol /\ match_time r = per) /\
    (forall vol, f (f vol) = f vol) /\
    (forall vol, f vol = vol \/ f vol = day_volume c \/
                 f vol = evening_volume c \/
                 (p = TBC /\ f vol = night_volume c)).
Proof.
  intros Hnow Hcfg.
  destruct (at_least_one_hit c (mkScan h m 0 0) Hnow Hcfg) as [k0 [Hk0 Hhit0]].
  destruct (first_hit_dec c day_steps (mkScan h m 0 0))
    as [[k [Hk [Hh Hf]]]|Hno];
    [|rewrite (Hno k0 Hk0) in Hhit0; discriminate].
  set (s0 := scanned k (mkScan h m 0 0)) in *.
  exists (fun vol =>
            if hit_night c s0 && match p with TBC => true | MCMC => false end
            then night_volume c
            else if hit_evening c s0 then evening_volume c
            else if hit_day c s0 then day_volume c else vol).
  exists (if hit_night c s0 then NIGHT
          else if hit_evening c s0 then EVENING else DAY).
  split; [|split].
  - intros vol.
    assert (Hhv : forall j, hit c (scanned j (mkScan h m vol 0))
                            = hit c (scanned j (mkScan h m 0 0))).
    { intros j. unfold hit.
      destruct (hits_position c j h m vol) as (-> & -> & ->). reflexivity. }
    exists (step_back (tests p c (scanned k (mkScan h m vol 0)))).
    split.
    + unfold set_volume_to_current_time.
      apply scan_loop_first_hit; auto.
      * rewrite Hhv. assumption.
      * intros j Hj. rewrite Hhv. auto.
    + destruct (step_back_keeps
                  (tests p c (scanned k (mkScan h m vol 0)))) as [-> ->].
      rewrite tests_volume, tests_period by (rewrite Hhv; assumption).
      destruct (hits_position c k h m vol) as (-> & -> & ->). fold s0.
      destruct (scanned_keeps k (mkScan h m vol 0)) as [-> _].
      cbn [volume]. auto.
  - intros vol.
    destruct (hit_night c s0 && _); [reflexivity|].
    destruct (hit_evening c s0); [reflexivity|].
    destruct (hit_day c s0); reflexivity.
  - intros vol. destruct p; destruct (hit_night c s0); cbn [andb];
      try (right; right; right; split; reflexivity);
      (destruct (hit_evening c s0); [auto|]);
      (destruct (hit_day c s0); auto).
Qed.

Lemma run_loop_steady c h m v per inputs :
  (forall vol, exists r,
      set_volume_to_current_time MCMC c day_steps h m vol = Some r /\
      volume r = (if vol =? v then v else volume r) /\ match_time r = per) ->
  forall mach,
    m_volume mach = v -> m_match_time mach = per ->
    exists mach',
      run_loop c day_steps h m inputs mach = Some mach' /\
      m_volume mach' = v /\ m_match_time mach' = per /\
      m_servo mach' = run_servo v 0 (length inputs) (m_servo mach).
Proof.
  intros Hscan. induction inputs as [|[sw ms] rest IH]; intros mach Hv Hp.
  - exists mach. cbn. auto.
  - cbn [run_loop length]. unfold loop_tail.
    destruct (Hscan (m_volume mach)) as [r [Hr [Hvol Hper]]].
    rewrite Hr.
    destruct (measure_crank_speed sw ms (m_crank mach)) as [kk tr2].
    rewrite Hv, Z.eqb_refl in Hvol.
    destruct (IH (mkMachine (volume r) (match_time r)
                    (smooth_servo (volume r) 0 (m_servo mach)) kk))
      as [mach' (Hrun & Hv' & Hp' & Hs')]; [assumption|assumption|].
    exists mach'. split; [exact Hrun|]. split; [assumption|].
    split; [assumption|].
    rewrite Hs'. cbn [m_servo]. rewrite Hvol.
    unfold run_servo. rewrite Nat.iter_succ_r. reflexivity.
Qed.

(** X18: at a fixed time of day, with a valid entry and volumes in
    0..100, a hundred passes through the end of [loop] or more bring the
    servo onto the scheduled volume, whatever the crank switch and the
    governor do in the meantime: the volume and the period are those of
    the first pass and the position equals that volume. *)
Theorem loop_reaches_scheduled_volume :
  forall (c : config) (h m : Z) (inputs : list (bool * Z)) (mach : machine),
    valid_time h m ->
    valid_time (day_hour c) (day_minute c) \/
    valid_time (evening_hour c) (evening_minute c) \/
    valid_time (night_hour c) (night_minute c) ->
    0 <= day_volume c <= 100 -> 0 <= evening_volume c <= 100 ->
    0 <= m_volume mach <= 100 ->
    0 <= servo_pos (m_servo mach) <= 100 ->
    (100 <= length inputs)%nat ->
    exists r mach',
      set_volume_to_current_time MCMC c day_steps h m (m_volume mach) = Some r /\
      run_loop c day_steps h m inputs mach = Some mach' /\
      m_volume mach' = volume r /\
      m_match_time mach' = match_time r /\
      servo_pos (m_servo mach') = volume r.
Proof.
  intros c h m inputs mach Hnow Hcfg Hdv Hev Hvol Hpos Hlen.
  destruct (scan_volume_steady MCMC c h m Hnow Hcfg)
    as [f [per (Hf & Hidem & Hrange)]].
  destruct (Hf (m_volume mach)) as [r (Hr & Hrv & Hrp)].
  set (v := f (m_volume mach)) in *.
  assert (Hv : 0 <= v <= 100).
  { subst v.
    destruct (Hrange (m_volume mach)) as [E|[E|[E|[E _]]]];
      [rewrite E; lia|rewrite E; lia|rewrite E; lia|discriminate E]. }
  destruct inputs as [|[sw ms] rest]; [cbn in Hlen; lia|].
  cbn [run_loop]. unfold loop_tail. rewrite Hr.
  destruct (measure_crank_speed sw ms (m_crank mach)) as [kk tr2].
  assert (Hsteady : forall vol, exists r0,
             set_volume_to_current_time MCMC c day_steps h m vol = Some r0 /\
             volume r0 = (if vol =? v then v else volume r0) /\
             match_time r0 = per).
  { intros vol. destruct (Hf vol) as [r0 (Hr0 & Hv0 & Hp0)].
    exists r0. split; [assumption|]. split; [|assumption].
    destruct (Z.eqb_spec vol v) as [->|_]; [|reflexivity].
    rewrite Hv0. subst v. apply Hidem. }
  destruct (run_loop_steady c h m v per rest Hsteady
              (mkMachine (volume r) (match_time r)
                 (smooth_servo (volume r) 0 (m_servo mach)) kk))
    as [mach' (Hrun & Hv' & Hp' & Hs')]; [assumption|assumption|].
  exists r, mach'. split; [reflexivity|]. split; [exact Hrun|].
  split; [congruence|]. split; [congruence|].
  rewrite Hs'. cbn [m_servo]. rewrite Hrv.
  change (smooth_servo v 0 (m_servo mach))
    with (run_servo v 0 1 (m_servo mach)).
  unfold run_servo. rewrite <- Nat.iter_add.
  fold (run_servo v 0 (length rest + 1) (m_servo mach)).
  rewrite gradual_position by (try lia; assumption).
  cbn [length] in Hlen.
  destruct (Z.leb_spec (servo_pos (m_servo mach)) v); lia.
Qed.

Lemma loop_reaches_scheduled_volume_witness :
  exists r mach',
    set_volume_to_current_time MCMC (example_config 80 50 0) day_steps 12 0 0
      = Some r /\
    run_loop (example_config 80 50 0) day_steps 12 0 (repeat (HIGH, 0) 100)
             (mkMachine 0 0 servo_boot (setup_crank (fun _ => 200)))
      = Some mach' /\
    m_volume mach' = volume r /\
    m_match_time mach' = match_time r /\
    servo_pos (m_servo mach') = volume r.
Proof.
  apply (loop_reaches_scheduled_volume (example_config 80 50 0) 12 0
           (repeat (HIGH, 0) 100)
           (mkMachine 0 0 servo_boot (setup_crank (fun _ => 200)))).
  - unfold valid_time. lia.
  - left. unfold valid_time. simpl. lia.
  - simpl. lia.
  - simpl. lia.
  - simpl. lia.
  - simpl. lia.
  - rewrite repeat_length. lia.
Defined.

Lemma plain_run_loop_steady c h m v per n :
  (forall vol, exists r,
      set_volume_to_current_time TBC c day_steps h m vol = Some r /\
      volume r = (if vol =? v then v else volume r) /\ match_time r = per) ->
  forall st,
    pl_volume st = v -> pl_match_time st = per ->
    exists st',
      plain_run_loop c day_steps h m n st = Some st' /\
      pl_volume st' = v /\ pl_match_time st' = per /\
      pl_servo st' = run_servo v 0 n (pl_servo st).
Proof.
  intros Hscan. induction n as [|n IH]; intros st Hv Hp.
  - exists st. cbn. auto.
  - cbn [plain_run_loop]. unfold plain_loop_tail.
    destruct (Hscan (pl_volume st)) as [r [Hr [Hvol Hper]]].
    rewrite Hr. rewrite Hv, Z.eqb_refl in Hvol.
    destruct (IH (mkPlain (volume r) (match_time r)
                    (smooth_servo (volume r) 0 (pl_servo st))))
      as [st' (Hrun & Hv' & Hp' & Hs')]; [assumption|assumption|].
    exists st'. split; [exact Hrun|]. split; [assumption|].
    split; [assumption|].
    rewrite Hs'. cbn [pl_servo]. rewrite Hvol.
    unfold run_servo. rewrite Nat.iter_succ_r. reflexivity.
Qed.

(** X19: the same for the plain sketch: at a fixed time of day, with a
    valid entry and the three volumes in 0..100, a hundred passes
    through the end of [loop] or more leave the servo on the volume of
    the period that the scan finds. *)
Theorem plain_loop_reaches_scheduled_volume :
  forall (c : config) (h m : Z) (n : nat) (st : plain),
    valid_time h m ->
    valid_time (day_hour c) (day_minute c) \/
    valid_time (evening_hour c) (evening_minute c) \/
    valid_time (night_hour c) (night_minute c) ->
    0 <= day_volume c <= 100 -> 0 <= evening_volume c <= 100 ->
    0 <= night_volume c <= 100 ->
    0 <= pl_volume st <= 100 ->
    0 <= servo_pos (pl_servo st) <= 100 ->
    (100 <= n)%nat ->
    exists r st',
      set_volume_to_current_time TBC c day_steps h m (pl_volume st) = Some r /\
      plain_run_loop c day_steps h m n st = Some st' /\
      pl_volume st' = volume r /\
      pl_match_time st' = match_time r /\
      servo_pos (pl_servo st') = volume r.
Proof.
  intros c h m n st Hnow Hcfg Hdv Hev Hnv Hvol Hpos Hlen.
  destruct (scan_volume_steady TBC c h m Hnow Hcfg)
    as [f [per (Hf & Hidem & Hrange)]].
  destruct (Hf (pl_volume st)) as [r (Hr & Hrv & Hrp)].
  set (v := f (pl_volume st)) in *.
  assert (Hv : 0 <= v <= 100).
  { subst v.
    destruct (Hrange (pl_volume st)) as [E|[E|[E|[_ E]]]]; rewrite E; lia. }
  destruct n as [|n]; [lia|].
  cbn [plain_run_loop]. unfold plain_loop_tail. rewrite Hr.
  assert (Hsteady : forall vol, exists r0,
             set_volume_to_current_time TBC c day_steps h m vol = Some r0 /\
             volume r0 = (if vol =? v then v else volume r0) /\
             match_time r0 = per).
  { intros vol. destruct (Hf vol) as [r0 (Hr0 & Hv0 & Hp0)].
    exists r0. split; [assumption|]. split; [|assumption].
    destruct (Z.eqb_spec vol v) as [->|_]; [|reflexivity].
    rewrite Hv0. subst v. apply Hidem. }
  destruct (plain_run_loop_steady c h m v per n Hsteady
              (mkPlain (volume r) (match_time r)
                 (smooth_servo (volume r) 0 (pl_servo st))))
    as [st' (Hrun & Hv' & Hp' & Hs')]; [assumption|assumption|].
  exists r, st'. split; [reflexivity|]. split; [exact Hrun|].
  split; [congruence|]. split; [congruence|].
  rewrite Hs'. cbn [pl_servo]. rewrite Hrv.
  change (smooth_servo v 0 (pl_servo st))
    with (run_servo v 0 1 (pl_servo st)).
  unfold run_servo. rewrite <- Nat.iter_add.
  fold (run_servo v 0 (n + 1) (pl_servo st)).
  rewrite gradual_position by (try lia; assumption).
  destruct (Z.leb_spec (servo_pos (pl_servo st)) v); lia.
Qed.

Lemma plain_loop_reaches_scheduled_volume_witness :
  exists r st',
    set_volume_to_current_time TBC (example_config 80 50 10) day_steps 23 30 0
      = Some r /\
    plain_run_loop (example_config 80 50 10) day_steps 23 30 100
                   (mkPlain 0 0 servo_boot) = Some st' /\
    pl_volume st' = volume r /\
    pl_match_time st' = match_time r /\
    servo_pos (pl_servo st') = volume r.
Proof.
  apply (plain_loop_reaches_scheduled_volume (example_config 80 50 10) 23 30
           100 (mkPlain 0 0 servo_boot)).
  - unfold valid_time. lia.
  - left. unfold valid_time. simpl. lia.
  - simpl. lia.
  - simpl. lia.
  - simpl. lia.
  - simpl. lia.
  - simpl. lia.
  - lia.
Defined.



(** ** The display *)

Module DisplayFacts.

Import Ascii.
Import String.
Import Display.
Local Open Scope string_scope.
Local Open Scope Z_scope.

Lemma all_below_spec n P :
  all_below n P = true -> forall z, 0 <= z < Z.of_nat n -> P z = true.
Proof.
  unfold all_below. intros H z Hz.
  rewrite forallb_forall in H. apply H.
  apply in_map_iff. exists (Z.to_nat z). split; [lia|].
  apply in_seq. lia.
Qed.

Lemma length_append a b : length (a ++ b) = (length a + length b)%nat.
Proof. induction a as [|ch a IH]; cbn; [reflexivity|]. rewrite IH. reflexivity. Qed.

Lemma print2_length v : 0 <= v <= 99 -> length (print2 v) = 2%nat.
Proof.
  intros Hv.
  assert (H : all_below 100 (fun z => (length (print2 z) =? 2)%nat) = true)
    by (vm_compute; reflexivity).
  apply Nat.eqb_eq. apply (all_below_spec 100 _ H). lia.
Qed.

Lemma print3_length v : 0 <= v <= 999 -> length (print3 v) = 3%nat.
Proof.
  intros Hv.
  assert (H : all_below 1000 (fun z => (length (print3 z) =? 3)%nat) = true)
    by (vm_compute; reflexivity).
  apply Nat.eqb_eq. apply (all_below_spec 1000 _ H). lia.
Qed.

Lemma print4_length v : 0 <= v <= 9999 -> length (print4 v) = 4%nat.
Proof.
  intros Hv.
  assert (H : all_below (100 * 100)
                (fun z => (length (print4 z) =? 4)%nat) = true)
    by (vm_compute; reflexivity).
  apply Nat.eqb_eq. apply (all_below_spec (100 * 100) _ H). lia.
Qed.

(** A text at least as long as the one before replaces it entirely. *)
Lemma overlay_overlay t1 :
  forall t2 old,
    (length t2 <= length t1)%nat ->
    overlay t1 (overlay t2 old) = overlay t1 old.
Proof.
  induction t1 as [|ch t1 IH]; intros t2 old Hlen.
  - destruct t2; [reflexivity|cbn in Hlen; lia].
  - cbn [overlay]. f_equal.
    destruct t2 as [|ch2 t2].
    + reflexivity.
    + cbn [overlay]. cbn [length] in Hlen.
      destruct old as [|co old]; apply IH; lia.
Qed.

(** X21: with valid trigger times the row that [set_trigger_times] shows
    has the same width for Day, Evening and Night (14 characters in the
    plain sketch, 16 in the machine controller), so each of the three
    texts, shown in turn, replaces the one before entirely. *)
Theorem trigger_times_row_width :
  forall (p : program) (c : config) (third third' : Z) (old : string),
    valid_time (day_hour c) (day_minute c) ->
    valid_time (evening_hour c) (evening_minute c) ->
    valid_time (night_hour c) (night_minute c) ->
    0 <= third <= 2 -> 0 <= third' <= 2 ->
    length (trigger_times_row p third c)
      = match p with TBC => 14%nat | MCMC => 16%nat end /\
    overlay (trigger_times_row p third c)
            (overlay (trigger_times_row p third' c) old)
      = overlay (trigger_times_row p third c) old.
Proof.
  intros p c third third' old [Hdh Hdm] [Heh Hem] [Hnh Hnm] Ht Ht'.
  assert (Hlen : forall i, 0 <= i <= 2 ->
            length (trigger_times_row p i c)
              = match p with TBC => 14%nat | MCMC => 16%nat end).
  { intros i Hi.
    assert (Hcase : i = 0 \/ i = 1 \/ i = 2) by lia.
    unfold trigger_times_row.
    destruct Hcase as [->|[->| ->]]; cbn [Z.eqb Pos.eqb];
      rewrite !length_append, !print2_length by lia;
      destruct p; reflexivity. }
  split; [apply Hlen; assumption|].
  apply overlay_overlay. rewrite !Hlen by assumption. lia.
Qed.

Lemma trigger_times_row_width_witness :
  length (trigger_times_row MCMC 2 (example_config 80 50 0))
    = 16%nat /\
  overlay (trigger_times_row MCMC 2 (example_config 80 50 0))
          (overlay (trigger_times_row MCMC 0 (example_config 80 50 0))
                   blank_row)
    = overlay (trigger_times_row MCMC 2 (example_config 80 50 0)) blank_row.
Proof.
  apply (trigger_times_row_width MCMC (example_config 80 50 0) 2 0 blank_row);
    unfold valid_time; simpl; lia.
Defined.

(** X22: with a threshold of at most four digits and a delay of at most
    three, both rows that [set_crank_speed] shows are 16 characters wide
    in either of its two alternating views, so each view replaces the
    other entirely. *)
Theorem crank_speed_rows_width :
  forall (k : crank) (half half' : Z) (old0 old1 : string),
    0 <= rpm_thresh k <= 9999 -> 0 <= off_delay k <= 999 ->
    length (fst (crank_speed_rows half k)) = 16%nat /\
    length (snd (crank_speed_rows half k)) = 16%nat /\
    overlay (fst (crank_speed_rows half k))
            (overlay (fst (crank_speed_rows half' k)) old0)
      = overlay (fst (crank_speed_rows half k)) old0 /\
    overlay (snd (crank_speed_rows half k))
            (overlay (snd (crank_speed_rows half' k)) old1)
      = overlay (snd (crank_speed_rows half k)) old1.
Proof.
  intros k half half' old0 old1 Hth Hod.
  assert (Hlen : forall i,
            length (fst (crank_speed_rows i k)) = 16%nat /\
            length (snd (crank_speed_rows i k)) = 16%nat).
  { intros i. unfold crank_speed_rows.
    destruct (i =? 0); cbn [fst snd]; split; try reflexivity;
      rewrite length_append;
      [rewrite print4_length by lia|rewrite print3_length by lia];
      reflexivity. }
  destruct (Hlen half) as [H0 H1]. destruct (Hlen half') as [H0' H1'].
  repeat split; try assumption; apply overlay_overlay; lia.
Qed.

Lemma crank_speed_rows_width_witness :
  let k := mkCrank 0 0 0 0 0 0 30 1500 in
  length (fst (crank_speed_rows 0 k)) = 16%nat /\
  length (snd (crank_speed_rows 0 k)) = 16%nat /\
  overlay (fst (crank_speed_rows 0 k))
          (overlay (fst (crank_speed_rows 1 k)) blank_row)
    = overlay (fst (crank_speed_rows 0 k)) blank_row /\
  overlay (snd (crank_speed_rows 0 k))
          (overlay (snd (crank_speed_rows 1 k)) blank_row)
    = overlay (snd (crank_speed_rows 0 k)) blank_row.
Proof.
  apply (crank_speed_rows_width (mkCrank 0 0 0 0 0 0 30 1500) 0 1
           blank_row blank_row); simpl; lia.
Defined.

(** X23: on the screen of [display_time_and_volume], for volumes that
    fit a byte: the two blanks printed after the volume erase what a
    longer volume left, so a volume row shows the same whether printed
    over a cleared row or over another volume row; the time row is 14
    characters wide.  In the machine controller the volume row printed
    over the night text leaves the last letter of "installation off" in
    the last column. *)
Theorem volume_row_over_previous :
  forall (p : program) (h m s mt v1 v2 : Z),
    valid_time h m -> 0 <= s <= 59 ->
    mt = DAY \/ mt = EVENING \/ mt = NIGHT ->
    0 <= v1 <= 255 -> 0 <= v2 <= 255 ->
    length (time_row h m s mt) = 14%nat /\
    overlay (volume_row p DAY v2) (overlay (volume_row p EVENING v1) blank_row)
      = overlay (volume_row p DAY v2) blank_row /\
    get 15 (overlay (volume_row MCMC DAY v2)
                    (overlay (volume_row MCMC NIGHT v1) blank_row))
      = Some "f"%char.
Proof.
  intros p h m s mt v1 v2 [Hh Hm] Hs Hmt Hv1 Hv2.
  split; [|split].
  - unfold time_row.
    rewrite !length_append, !print2_length by lia.
    destruct Hmt as [->|[->| ->]]; reflexivity.
  - assert (H : forall q, all_below 256 (fun a => all_below 256 (fun b =>
                 String.eqb
                   (overlay (volume_row q DAY a)
                      (overlay (volume_row q EVENING b) blank_row))
                   (overlay (volume_row q DAY a) blank_row))) = true)
      by (intros q; destruct q; vm_compute; reflexivity).
    apply String.eqb_eq.
    apply (all_below_spec 256 _
             (all_below_spec 256 _ (H p) v2 ltac:(lia)) v1). lia.
  - assert (H : all_below 256 (fun a =>
                 match get 15 (overlay (volume_row MCMC DAY a)
                                       "installation off") with
                 | Some ch => Ascii.eqb ch "f"
                 | None => false
                 end) = true)
      by (vm_compute; reflexivity).
    assert (Hn : overlay (volume_row MCMC NIGHT v1) blank_row
                 = "installation off") by reflexivity.
    rewrite Hn.
    pose proof (all_below_spec 256 _ H v2 ltac:(lia)) as Hget.
    cbv beta in Hget.
    destruct (get 15 (overlay (volume_row MCMC DAY v2) "installation off"))
      as [ch|]; [|discriminate Hget].
    apply Ascii.eqb_eq in Hget. rewrite Hget. reflexivity.
Qed.

Lemma volume_row_over_previous_witness :
  length (time_row 9 5 0 DAY) = 14%nat /\
  overlay (volume_row MCMC DAY 5) (overlay (volume_row MCMC EVENING 100) blank_row)
    = overlay (volume_row MCMC DAY 5) blank_row /\
  get 15 (overlay (volume_row MCMC DAY 5)
                  (overlay (volume_row MCMC NIGHT 100) blank_row))
    = Some "f"%char.
Proof.
  apply (volume_row_over_previous MCMC 9 5 0 DAY 100 5);
    unfold valid_time; auto; lia.
Defined.

End DisplayFacts.
